(** * tsc-multi: path policy, file-system adapter and declaration specifier rewriter

    A shallow embedding of [src/worker/worker.ts] (class [Worker]) and of
    [src/transformers/rewriteDtsImport.ts]
    ([createRewriteDtsImportTransformer]).

    JavaScript strings are modelled as [string], holding the bytes of
    their UTF-8 encoding: the characters the code looks for (dots, slashes,
    the letters of the suffixes, line feed, carriage return) are single
    bytes, the line separators U+2028 and U+2029 are the byte sequences
    E2 80 A8 and E2 80 A9.  [undefined] is [None]; exceptions are the
    [Throw] constructor of [result].  The host compiler ([typescript]) and
    the host file system are external: they enter as records of functions,
    the compiler's being able to throw. *)

From Stdlib Require Import String Ascii List Bool Arith ZArith Lia.
Import ListNotations.
Set Warnings "-register-all".
Open Scope list_scope.
Open Scope string_scope.

(** ** JavaScript built-ins used by the sources *)

Module JS.

(** [String.prototype.startsWith] with the default position 0. *)
Definition startsWith (s searchString : string) : bool :=
  String.prefix searchString s.

(** [String.prototype.endsWith] with the default end position: the last
    [length searchString] code units of [s] are compared with
    [searchString]; the answer is [false] when [s] is shorter. *)
Definition endsWith (s searchString : string) : bool :=
  let len := String.length s in
  let searchLength := String.length searchString in
  (searchLength <=? len)%nat
  && (substring (len - searchLength) searchLength s =? searchString).

(** [v || d] on a [string | undefined] value: [undefined] and the empty
    string are falsy. *)
Definition or_default (v : option string) (d : string) : string :=
  match v with
  | Some s => if s =? "" then d else s
  | None => d
  end.

(** Exceptions the modelled code can raise. *)
Inductive exn : Type :=
| TypeError
| SyntaxError
| Error (message : string).

Inductive result (A : Type) : Type :=
| Ok (a : A)
| Throw (e : exn).
Arguments Ok {A} a.
Arguments Throw {A} e.

Definition bind {A B : Type} (m : result A) (k : A -> result B) : result B :=
  match m with
  | Ok a => k a
  | Throw e => Throw e
  end.

End JS.

Notation "x <- m ;; k" := (JS.bind m (fun x => k))
  (at level 61, m at next level, right associativity).

(** ** Node's [path.extname] (POSIX flavour)

    The loop of Node's [lib/path.js], scanning the path from its last
    character to its first.  The sentinel [-1] of [startDot] and [end] is
    [None]; [preDotState] takes the values 0, 1 and -1 of the original. *)

Module NodePath.

Inductive PreDot : Type := PreDot0 | PreDot1 | PreDotNeg1.

Record ExtState : Type := mkExtState {
  startDot : option nat;
  startPart : nat;
  end_ : option nat;
  matchedSlash : bool;
  preDotState : PreDot
}.

Definition initState : ExtState :=
  mkExtState None 0 None true PreDot0.

Definition isSlash (c : ascii) : bool := Ascii.eqb c "/".
Definition isDot (c : ascii) : bool := Ascii.eqb c ".".

(** One pass of the [for (i = path.length - 1; i >= 0; --i)] loop over
    the characters in reverse order; [i] is the index of the head. *)
Fixpoint extnameLoop (revPath : list ascii) (i : nat) (st : ExtState)
  : ExtState :=
  match revPath with
  | [] => st
  | code :: rest =>
      if isSlash code then
        if negb (matchedSlash st) then
          (* break *)
          mkExtState (startDot st) (S i) (end_ st) (matchedSlash st)
                     (preDotState st)
        else extnameLoop rest (Nat.pred i) st
      else
        let st1 :=
          match end_ st with
          | None => mkExtState (startDot st) (startPart st) (Some (S i))
                               false (preDotState st)
          | Some _ => st
          end in
        let st2 :=
          if isDot code then
            match startDot st1 with
            | None => mkExtState (Some i) (startPart st1) (end_ st1)
                                 (matchedSlash st1) (preDotState st1)
            | Some _ =>
                mkExtState (startDot st1) (startPart st1) (end_ st1)
                           (matchedSlash st1) PreDot1
            end
          else
            match startDot st1 with
            | Some _ =>
                mkExtState (startDot st1) (startPart st1) (end_ st1)
                           (matchedSlash st1) PreDotNeg1
            | None => st1
            end in
        extnameLoop rest (Nat.pred i) st2
  end.

Definition extnameResult (path : string) (st : ExtState) : string :=
  match startDot st, end_ st with
  | Some sd, Some e =>
      match preDotState st with
      | PreDot0 => ""
      | PreDot1 =>
          if (sd =? Nat.pred e)%nat && (sd =? S (startPart st))%nat then ""
          else substring sd (e - sd) path
      | PreDotNeg1 => substring sd (e - sd) path
      end
  | _, _ => ""
  end.

Definition extname (path : string) : string :=
  let cs := list_ascii_of_string path in
  extnameResult path
    (extnameLoop (rev cs) (Nat.pred (List.length cs)) initState).

End NodePath.

(** ** [src/utils.ts] *)

Module Utils.

(** Modelled from the spec: [trimSuffix] of [src/utils.ts] is not among
    the sources; the specification describes its use as "strip a trailing
    ... suffix if present" (section 4.3, rule 5) and as replacing "the
    role-specific suffix" (section 4.1). *)
Definition trimSuffix (input suffix : string) : string :=
  if JS.endsWith input suffix
  then substring 0 (String.length input - String.length suffix) input
  else input.

End Utils.

(** ** [src/transformers/rewriteImport.ts]: the options type *)

Module RewriteImport.

(** The fields of [RewriteImportTransformerOptions] that hold data.  Its
    [system] and [ts] fields are the host file system and the compiler
    API; they are parameters of the sections below. *)
Record RewriteImportTransformerOptions : Type := mkOptions {
  extname : string;
  dtsExtName : string
}.

End RewriteImport.

(** ** [src/transformers/rewriteDtsImport.ts] *)

Module RewriteDtsImport.

Import RewriteImport.

Definition JS_EXT : string := ".js".
Definition JSON_EXT : string := ".json".

Definition isRelativePath (path : string) : bool :=
  JS.startsWith path "./" || JS.startsWith path "../".

(** The syntax tree, with the node shapes the visitor inspects.  Every
    other node is an [OtherNode] carrying its [kind] and its children in
    the order [visitEachChild] walks them. *)
Inductive Node : Type :=
| StringLiteral (text : string)
| ImportKeyword
| Identifier (escapedText : string)
| ImportDeclaration (modifiers : list Node) (importClause : option Node)
    (moduleSpecifier : Node) (assertClause : option Node)
| ExportDeclaration (modifiers : list Node) (isTypeOnly : bool)
    (exportClause : option Node) (moduleSpecifier : option Node)
    (assertClause : option Node)
| CallExpression (expression : Node) (typeArguments : list Node)
    (arguments : list Node)
| OtherNode (kind : nat) (children : list Node).

(** The transformer's input: a source file or a bundle. *)
Inductive Root : Type :=
| SourceFile (fileName : string) (node : Node)
| Bundle.

(** The members of [ts.SyntaxKind] the model needs for the [kind] of the
    named node shapes; their values depend on the compiler version. *)
Record SyntaxKindTable : Type := mkSyntaxKind {
  SK_StringLiteral : nat;
  SK_ImportKeyword : nat;
  SK_Identifier : nat;
  SK_ImportDeclaration : nat;
  SK_ExportDeclaration : nat;
  SK_CallExpression : nat
}.

(** The two numbers the source compares [kind] against, under the names
    its comments give them ("SyntaxKind.MappedType",
    "SyntaxKind.TemplateLiteralTypeSpan").  The names are the comments'
    only: in TypeScript 5.1.6, the version the source says the numbers
    are taken from, 200 and 204 are [LiteralType] and [ImportType]
    (module [TS516] below). *)
Definition MappedType : nat := 200.
Definition TemplateLiteralTypeSpan : nat := 204.

Definition isStringLiteral (n : Node) : bool :=
  match n with StringLiteral _ => true | _ => false end.

Section Transformer.

Variable options : RewriteImportTransformerOptions.
Variable SyntaxKind : SyntaxKindTable.
(** [sys.directoryExists], and [resolve] and [dirname] of Node's [path]. *)
Variable directoryExists : string -> bool.
Variable resolve : string -> string -> string.
Variable dirname : string -> string.
(** [ctx.getCompilerOptions().resolveJsonModule], as a truth value. *)
Variable resolveJsonModule : bool.
(** [sourceFile.fileName] of the file being transformed. *)
Variable sourceFileName : string.

Definition kind (n : Node) : nat :=
  match n with
  | StringLiteral _ => SK_StringLiteral SyntaxKind
  | ImportKeyword => SK_ImportKeyword SyntaxKind
  | Identifier _ => SK_Identifier SyntaxKind
  | ImportDeclaration _ _ _ _ => SK_ImportDeclaration SyntaxKind
  | ExportDeclaration _ _ _ _ _ => SK_ExportDeclaration SyntaxKind
  | CallExpression _ _ _ => SK_CallExpression SyntaxKind
  | OtherNode k _ => k
  end.

Definition isDirectory (path : string) : bool :=
  let sourcePath := sourceFileName in
  let fullPath := resolve (dirname sourcePath) path in
  directoryExists fullPath.

Definition updateModuleSpecifier (node : Node) : Node :=
  match node with
  | StringLiteral text =>
      if negb (isRelativePath text) then node
      else
        let ext := NodePath.extname text in
        if ext =? ".cjs" then StringLiteral text
        else if isDirectory text then
          StringLiteral (text ++ "/index" ++ extname options)
        else if (ext =? JSON_EXT) && resolveJsonModule then node
        else
          let base :=
            if ext =? JS_EXT then Utils.trimSuffix text JS_EXT
            else text in
          StringLiteral (base ++ extname options)
  | _ => node
  end.

(** [recentNodes.unshift(node)] followed by [pop()] when the new length
    exceeds 3. *)
Definition unshift3 (node : Node) (recentNodes : list Node) : list Node :=
  let l := node :: recentNodes in
  if (3 <? List.length l)%nat then removelast l else l.

(** The test guarding the type-position branch of the visitor. *)
Definition typePositionShape (node : Node) (recentNodes : list Node)
  : bool :=
  (List.length recentNodes =? 3)%nat
  && isStringLiteral node
  && match recentNodes with
     | _ :: r1 :: r2 :: _ =>
         (kind r1 =? MappedType)%nat
         && (kind r2 =? TemplateLiteralTypeSpan)%nat
     | _ => false
     end.

(** The body of the type-position branch, for a literal with [text]. *)
Definition updateTypePositionLiteral (text : string) : Node :=
  if negb (text =? "..") && negb (isRelativePath text) then
    StringLiteral text
  else
    let ext := NodePath.extname text in
    if (ext =? JSON_EXT) && resolveJsonModule then StringLiteral text
    else if isDirectory text then
      StringLiteral (text ++ "/index" ++ extname options)
    else
      let base :=
        if ext =? JS_EXT then Utils.trimSuffix text JS_EXT else text in
      StringLiteral (base ++ extname options).

(** [visitor], with [recentNodes] threaded through the traversal.  The
    branches are tried in the order of the source: import declaration,
    export declaration, type-position literal, dynamic import,
    [require] call, and [visitEachChild] otherwise.  (The
    [console.log] of the type-position branch is not modelled.) *)
Fixpoint visitor (node : Node) (recentNodes0 : list Node) {struct node}
  : Node * list Node :=
  let recentNodes := unshift3 node recentNodes0 in
  let visitNodes :=
    fix visitNodes (l : list Node) (r : list Node) {struct l}
      : list Node * list Node :=
      match l with
      | [] => ([], r)
      | x :: xs =>
          let (x', r1) := visitor x r in
          let (xs', r2) := visitNodes xs r1 in
          (x' :: xs', r2)
      end in
  match node with
  | ImportDeclaration modifiers importClause moduleSpecifier assertClause =>
      (ImportDeclaration modifiers importClause
         (updateModuleSpecifier moduleSpecifier) assertClause,
       recentNodes)
  | ExportDeclaration modifiers isTypeOnly exportClause None assertClause =>
      (node, recentNodes)
  | ExportDeclaration modifiers isTypeOnly exportClause
      (Some moduleSpecifier) assertClause =>
      (ExportDeclaration modifiers isTypeOnly exportClause
         (Some (updateModuleSpecifier moduleSpecifier)) assertClause,
       recentNodes)
  | StringLiteral text =>
      if typePositionShape node recentNodes
      then (updateTypePositionLiteral text, recentNodes)
      else (node, recentNodes)
  | CallExpression expression typeArguments arguments =>
      let rewriteFirst :=
        match arguments with
        | [] => (node, recentNodes)
        | firstArg :: restArg =>
            (CallExpression expression typeArguments
               (updateModuleSpecifier firstArg :: restArg),
             recentNodes)
        end in
      match expression with
      | ImportKeyword => rewriteFirst
      | Identifier escapedText =>
          if escapedText =? "require" then rewriteFirst
          else
            let (e', r1) := visitor expression recentNodes in
            let (t', r2) := visitNodes typeArguments r1 in
            let (a', r3) := visitNodes arguments r2 in
            (CallExpression e' t' a', r3)
      | _ =>
          let (e', r1) := visitor expression recentNodes in
          let (t', r2) := visitNodes typeArguments r1 in
          let (a', r3) := visitNodes arguments r2 in
          (CallExpression e' t' a', r3)
      end
  | OtherNode k children =>
      let (c', r1) := visitNodes children recentNodes in
      (OtherNode k c', r1)
  | ImportKeyword | Identifier _ => (node, recentNodes)
  end.

(** [visitor] over a list of children, left to right, as
    [visitEachChild] walks them. *)
Fixpoint visitNodes (l : list Node) (r : list Node) {struct l}
  : list Node * list Node :=
  match l with
  | [] => ([], r)
  | x :: xs =>
      let (x', r1) := visitor x r in
      let (xs', r2) := visitNodes xs r1 in
      (x' :: xs', r2)
  end.

End Transformer.

(** The function the transformer factory returns for one transformation
    context: bundles are refused, a source file is visited from its
    root.  [recentNodes] belongs to the context and survives from one
    file to the next. *)
Definition transformFile (options : RewriteImportTransformerOptions)
    (SyntaxKind : SyntaxKindTable)
    (directoryExists : string -> bool)
    (resolve : string -> string -> string) (dirname : string -> string)
    (resolveJsonModule : bool) (file : Root) (recentNodes : list Node)
  : JS.result (Root * list Node) :=
  match file with
  | Bundle => JS.Throw (JS.Error "Doesn't work on bundles.")
  | SourceFile fileName node =>
      let (node', r) :=
        visitor options SyntaxKind directoryExists resolve dirname
          resolveJsonModule fileName node recentNodes in
      JS.Ok (SourceFile fileName node', r)
  end.

End RewriteDtsImport.

(** ** [ts.SyntaxKind] in TypeScript 5.1.6

    The members of the compiler's [SyntaxKind] enumeration from
    [MappedType] to [ImportType], with their values in TypeScript 5.1.6.
    The enumeration belongs to the compiler, not to this repository. *)

Module TS516.

Definition MappedType : nat := 199.
Definition LiteralType : nat := 200.
Definition NamedTupleMember : nat := 201.
Definition TemplateLiteralType : nat := 202.
Definition TemplateLiteralTypeSpan : nat := 203.
Definition ImportType : nat := 204.

End TS516.

(** ** [src/worker/worker.ts] *)

Module Worker.

Import RewriteImport.

Definition JS_EXT : string := ".js".
Definition MAP_EXT : string := ".map".
Definition JS_MAP_EXT : string := JS_EXT ++ MAP_EXT.
Definition DTS_EXT : string := ".d.ts".
Definition DTS_MAP_EXT : string := DTS_EXT ++ MAP_EXT.

(** The fields of [WorkerOptions] read by the modelled methods. *)
Record WorkerOptions : Type := mkWorkerOptions {
  extname : option string;
  dtsExtName : option string;
  transpileOnly : bool;
  clean : bool;
  projects : list string
}.

(** Values produced by [JSON.parse]; numbers are kept abstract. *)
Inductive json : Type :=
| JNull
| JBool (b : bool)
| JNumber (repr : string)
| JString (s : string)
| JArray (items : list json)
| JObject (fields : list (string * json)).

(** Property read [obj.key] on the fields of an object. *)
Fixpoint getField (key : string) (fields : list (string * json))
  : option json :=
  match fields with
  | [] => None
  | (k, v) :: rest => if k =? key then Some v else getField key rest
  end.

(** Property write [obj.key = v]: an existing property keeps its place,
    a new one is added last. *)
Fixpoint setField (key : string) (v : json) (fields : list (string * json))
  : list (string * json) :=
  match fields with
  | [] => [(key, v)]
  | (k, w) :: rest =>
      if k =? key then (k, v) :: rest else (k, w) :: setField key v rest
  end.

(** The host [ts.System] the worker wraps, over a file-system state.
    The host's own input and output failures are outside the model: a
    write of the host always yields a new state. *)
Record System (FS : Type) : Type := mkSystem {
  sys_fileExists : FS -> string -> bool;
  sys_readFile : FS -> string -> option string;
  sys_writeFile : string -> string -> FS -> FS;
  sys_deleteFile : option (string -> FS -> FS)
}.
Arguments sys_fileExists {FS}.
Arguments sys_readFile {FS}.
Arguments sys_writeFile {FS}.
Arguments sys_deleteFile {FS}.

(** Diagnostics and the parts of the compiler API the transpile-only
    path calls.  [ts_getParsedCommandLineOfConfigFile] stands for
    [convertCompilerOptionsFromJson] followed by
    [getParsedCommandLineOfConfigFile]; it receives the
    [fileExists] and [readFile] of the host it is given and returns the
    parsed configuration together with the diagnostics it hands to
    [onUnRecoverableConfigFileDiagnostic].  Every call can throw
    ([transpileModule] does, with "Output generation failed", on a file
    for which nothing is emitted); [ts_getOutputFileNames] returns the
    array the source destructures. *)
Inductive DiagnosticCategory : Type :=
| DiagWarning | DiagError | DiagSuggestion | DiagMessage.

Record Diagnostic : Type := mkDiagnostic {
  category : DiagnosticCategory;
  code : nat;
  messageText : string
}.

Record TranspileOutput : Type := mkTranspileOutput {
  outputText : string;
  diagnostics : option (list Diagnostic);
  sourceMapText : option string
}.

Record Compiler (Config : Type) : Type := mkCompiler {
  ts_getParsedCommandLineOfConfigFile :
    (string -> bool) -> (string -> option string) -> string ->
    JS.result (option Config * list Diagnostic);
  ts_fileNames : Config -> list string;
  ts_getOutputFileNames : Config -> string -> JS.result (list string);
  ts_transpileModule :
    string -> Config -> string -> RewriteImportTransformerOptions ->
    JS.result TranspileOutput
}.
Arguments ts_getParsedCommandLineOfConfigFile {Config}.
Arguments ts_fileNames {Config}.
Arguments ts_getOutputFileNames {Config}.
Arguments ts_transpileModule {Config}.

(** The state [run] acts on: the file system behind the host system and
    the diagnostics handed to the reporter so far. *)
Record World (FS : Type) : Type := mkWorld {
  fs : FS;
  reported : list Diagnostic
}.
Arguments mkWorld {FS}.
Arguments fs {FS}.
Arguments reported {FS}.

Definition SOURCE_MAPPING_URL : string := "//# sourceMappingURL=".

(** The characters the regular expression's [.] does not match: line
    feed and carriage return, one byte each, and the line separators
    U+2028 and U+2029, the bytes E2 80 A8 and E2 80 A9. *)
Definition isLineTerminator (c : ascii) : bool :=
  Ascii.eqb c "010" || Ascii.eqb c "013".

(** [s] starts with a character that [.] does not match. *)
Definition lineTerminatorAt (s : string) : bool :=
  match s with
  | EmptyString => false
  | String c rest =>
      isLineTerminator c
      || (Ascii.eqb c "226"
          && match rest with
             | String c2 (String c3 _) =>
                 Ascii.eqb c2 "128"
                 && (Ascii.eqb c3 "168" || Ascii.eqb c3 "169")
             | _ => false
             end)
  end.

(** What a greedy [.*] matches at the head of [s]. *)
Fixpoint takeLine (s : string) : string :=
  match s with
  | EmptyString => EmptyString
  | String c rest =>
      if lineTerminatorAt s then EmptyString else String c (takeLine rest)
  end.

Section Methods.

Variable data : WorkerOptions.

Definition getJSPath (path : string) : string :=
  match extname data with
  | Some e =>
      if e =? "" then path else Utils.trimSuffix path JS_EXT ++ e
  | None => path
  end.

Definition getDtsPath (path : string) : string :=
  match dtsExtName data with
  | Some e =>
      if e =? "" then path else Utils.trimSuffix path DTS_EXT ++ e
  | None => path
  end.

Definition getJSMapPath (path : string) : string :=
  match extname data with
  | Some e =>
      if e =? "" then path
      else Utils.trimSuffix path JS_MAP_EXT ++ e ++ MAP_EXT
  | None => path
  end.

Definition getDtsMapPath (path : string) : string :=
  match dtsExtName data with
  | Some e =>
      if e =? "" then path
      else Utils.trimSuffix path DTS_MAP_EXT ++ e ++ MAP_EXT
  | None => path
  end.

Definition rewritePath (path : string) (ignoreDts : bool) : string :=
  if JS.endsWith path JS_EXT then getJSPath path
  else if JS.endsWith path JS_MAP_EXT then getJSMapPath path
  else if negb ignoreDts then
    if JS.endsWith path DTS_EXT then getDtsPath path
    else if JS.endsWith path DTS_MAP_EXT then getDtsMapPath path
    else path
  else path.

(** [data.replace(/\/\/# sourceMappingURL=(.+)/g, ...)]: scanning from
    the left, each occurrence of the marker followed by at least one
    character of the same line is replaced, together with the rest of
    its line, by the marker and the rewritten path.  [skip] counts the
    characters of [s] still covered by the previous match. *)
Fixpoint replaceSourceMappingURL (s : string) (skip : nat) : string :=
  match s with
  | EmptyString => EmptyString
  | String c rest =>
      match skip with
      | S k => replaceSourceMappingURL rest k
      | O =>
          if String.prefix SOURCE_MAPPING_URL s then
            let n := String.length SOURCE_MAPPING_URL in
            let path := takeLine (substring n (String.length s - n) s) in
            if path =? "" then String c (replaceSourceMappingURL rest 0)
            else
              SOURCE_MAPPING_URL ++ rewritePath path false
              ++ replaceSourceMappingURL rest
                   (Nat.pred (n + String.length path))
          else String c (replaceSourceMappingURL rest 0)
      end
  end.

Definition rewriteSourceMappingURL (data_ : string) : string :=
  replaceSourceMappingURL data_ 0.

Section Adapter.

(** [JSON.parse] ([None]: it throws a [SyntaxError]) and
    [JSON.stringify]. *)
Variable JSON_parse : string -> option json.
Variable JSON_stringify : json -> string.

(** Reading [file] off anything but an object with a string [file]
    ends in a [TypeError]: on [null] at the property read, otherwise
    at [path.endsWith] inside [rewritePath]. *)
Definition rewriteSourceMap (data_ : string) : JS.result string :=
  match JSON_parse data_ with
  | None => JS.Throw JS.SyntaxError
  | Some (JObject fields) =>
      match getField "file" fields with
      | Some (JString file) =>
          JS.Ok (JSON_stringify
                   (JObject
                      (setField "file"
                         (JString (rewritePath file false)) fields)))
      | _ => JS.Throw JS.TypeError
      end
  | Some _ => JS.Throw JS.TypeError
  end.

Variable FS : Type.
Variable sys : System FS.

(** [createSystem]: the four overridden members. *)
Definition getReadPaths (path : string) : list string :=
  let paths := [rewritePath path true] in
  if JS.endsWith path JS_EXT then paths ++ [path] else paths.

Definition fileExists (fs : FS) (inputPath : string) : bool :=
  fold_left (fun result path => result || sys_fileExists sys fs path)
            (getReadPaths inputPath) false.

(** The callback of [reduce] in [readFile]: [result ?? read(path)]. *)
Definition firstRead (read : string -> option string)
    (result : option string) (path : string) : option string :=
  match result with
  | Some r => Some r
  | None => read path
  end.

Definition readFile (fs : FS) (inputPath : string) : option string :=
  fold_left (firstRead (sys_readFile sys fs)) (getReadPaths inputPath) None.

Definition writeFile (path data_ : string) (fs : FS) : JS.result FS :=
  let newPath := rewritePath path false in
  newData <-
    (if JS.endsWith path JS_EXT || JS.endsWith path DTS_EXT
     then JS.Ok (rewriteSourceMappingURL data_)
     else if JS.endsWith path JS_MAP_EXT || JS.endsWith path DTS_MAP_EXT
     then rewriteSourceMap data_
     else JS.Ok data_) ;;
  JS.Ok (sys_writeFile sys newPath newData fs).

Definition deleteFile (path : string) (fs : FS) : FS :=
  let newPath := rewritePath path false in
  match sys_deleteFile sys with
  | Some del => del newPath fs
  | None => fs
  end.

End Adapter.

(** [patchSolutionBuilderHost]: the options both transformers are
    created with, and which hooks are installed. *)
Definition transformerOptions : RewriteImportTransformerOptions :=
  mkOptions (JS.or_default (extname data) JS_EXT)
            (JS.or_default (dtsExtName data) DTS_EXT).

Record CustomTransformers : Type := mkCustomTransformers {
  after : list RewriteImportTransformerOptions;
  afterDeclarations : list RewriteImportTransformerOptions
}.

Definition transformers : CustomTransformers :=
  match dtsExtName data with
  | Some _ => mkCustomTransformers [transformerOptions] [transformerOptions]
  | None => mkCustomTransformers [transformerOptions] []
  end.

(** *** The transpile-only path and [run] *)

Section Run.

Variable JSON_parse : string -> option json.
Variable JSON_stringify : json -> string.
Variable FS : Type.
Variable sys : System FS.
Variable Config : Type.
Variable ts : Compiler Config.
(** [join] of Node's [path]. *)
Variable join : string -> string -> string.
(** [createBuilder().build()] and [createBuilder().clean()]. *)
Variable builder_build : World FS -> JS.result (Z * World FS).
Variable builder_clean : World FS -> JS.result (Z * World FS).

Definition reportDiagnostics (ds : list Diagnostic) (w : World FS)
  : World FS :=
  mkWorld (fs w) (reported w ++ ds).

(** One iteration of the loop over [config.fileNames].  An output path
    that is [undefined] makes [writeFile] throw a [TypeError], at
    [path.endsWith] in [rewritePath]. *)
Definition transpileFile (config : Config) (inputPath : string)
    (w : World FS) : JS.result (World FS) :=
  if negb (fileExists FS sys (fs w) inputPath)
     || JS.endsWith inputPath ".d.ts"
  then JS.Ok w
  else
    let content :=
      match readFile FS sys (fs w) inputPath with
      | Some c => c
      | None => ""
      end in
    outputs <- ts_getOutputFileNames ts config inputPath ;;
    let outputPath := nth_error outputs 0 in
    let sourceMapPath := nth_error outputs 1 in
    output <- ts_transpileModule ts content config inputPath
                transformerOptions ;;
    let w1 :=
      reportDiagnostics
        (match diagnostics output with Some ds => ds | None => [] end)
        w in
    fs1 <- match outputPath with
           | Some path =>
               writeFile JSON_parse JSON_stringify FS sys
                 path (outputText output) (fs w1)
           | None => JS.Throw JS.TypeError
           end ;;
    match sourceMapText output with
    | Some text =>
        match sourceMapPath with
        | Some mapPath =>
            fs2 <- writeFile JSON_parse JSON_stringify FS sys
                     mapPath text fs1 ;;
            JS.Ok (mkWorld fs2 (reported w1))
        | None => JS.Throw JS.TypeError
        end
    | None => JS.Ok (mkWorld fs1 (reported w1))
    end.

Fixpoint transpileFiles (config : Config) (fileNames : list string)
    (w : World FS) : JS.result (World FS) :=
  match fileNames with
  | [] => JS.Ok w
  | inputPath :: rest =>
      w1 <- transpileFile config inputPath w ;;
      transpileFiles config rest w1
  end.

Definition transpileProject (projectPath : string) (w : World FS)
  : JS.result (World FS) :=
  let tsConfigPath :=
    if fileExists FS sys (fs w) projectPath then projectPath
    else join projectPath "tsconfig.json" in
  parsed <- ts_getParsedCommandLineOfConfigFile ts
              (fileExists FS sys (fs w)) (readFile FS sys (fs w))
              tsConfigPath ;;
  let (config, unrecoverable) := parsed in
  let w1 := reportDiagnostics unrecoverable w in
  match config with
  | None => JS.Ok w1
  | Some config => transpileFiles config (ts_fileNames ts config) w1
  end.

Fixpoint transpileProjects (ps : list string) (w : World FS)
  : JS.result (World FS) :=
  match ps with
  | [] => JS.Ok w
  | project :: rest =>
      w1 <- transpileProject project w ;;
      transpileProjects rest w1
  end.

Definition transpile (w : World FS) : JS.result (World FS) :=
  transpileProjects (projects data) w.

Definition run (w : World FS) : JS.result (Z * World FS) :=
  if transpileOnly data then
    w1 <- transpile w ;;
    JS.Ok (0%Z, w1)
  else if clean data then builder_clean w
  else builder_build w.

End Run.

(** [host.getParsedCommandLine] of [patchSolutionBuilderHost]: the value
    of [config.options.tsBuildInfoFile] it returns, from the value the
    configuration file gave and from the answer of
    [isIncrementalCompilation] ([src/utils.ts]) on the parsed options. *)
Definition patchedTsBuildInfoFile (path : string)
    (tsBuildInfoFile : option string) (incremental : bool) : option string :=
  let basePath := Utils.trimSuffix path (NodePath.extname path) in
  match extname data with
  | Some e =>
      if e =? "" then tsBuildInfoFile
      else
        match tsBuildInfoFile with
        | Some f =>
            if (f =? "") && incremental
            then Some (basePath ++ e ++ ".tsbuildinfo")
            else tsBuildInfoFile
        | None =>
            if incremental then Some (basePath ++ e ++ ".tsbuildinfo")
            else tsBuildInfoFile
        end
  | None => tsBuildInfoFile
  end.

End Methods.

End Worker.

(** ** Predicates used in the statements below *)

Module Spec.

(** One of two strings is a suffix of the other. *)
Definition suffixClash (e suffix : string) : bool :=
  JS.endsWith e suffix || JS.endsWith suffix e.

(** A configured extension that is [.js] itself or that shares no suffix
    relation with any of the four role suffixes of the path policy. *)
Definition stableExtension (e : string) : bool :=
  (e =? Worker.JS_EXT)
  || negb (existsb (suffixClash e)
             [Worker.JS_EXT; Worker.JS_MAP_EXT;
              Worker.DTS_EXT; Worker.DTS_MAP_EXT]).

(** [updateSpecifier] on the text of a string literal, in the words of
    the specification (section 4.3, rules 1 to 5): rule 5 strips a
    trailing [.js] whenever the text has one. *)
Definition updateSpecifier (scriptExt : string)
    (isDirectory : string -> bool) (resolveJsonModule : bool)
    (text : string) : string :=
  if negb (RewriteDtsImport.isRelativePath text) then text
  else if NodePath.extname text =? ".cjs" then text
  else if isDirectory text then text ++ "/index" ++ scriptExt
  else if (NodePath.extname text =? ".json") && resolveJsonModule then text
  else Utils.trimSuffix text ".js" ++ scriptExt.

(** [writeFile path content] of the adapter does not throw. *)
Definition writable (data : Worker.WorkerOptions)
    (JSON_parse : string -> option Worker.json)
    (JSON_stringify : Worker.json -> string)
    (path content : string) : bool :=
  if JS.endsWith path Worker.JS_EXT || JS.endsWith path Worker.DTS_EXT
  then true
  else if JS.endsWith path Worker.JS_MAP_EXT
          || JS.endsWith path Worker.DTS_MAP_EXT
  then match Worker.rewriteSourceMap data JSON_parse JSON_stringify content
       with
       | JS.Ok _ => true
       | JS.Throw _ => false
       end
  else true.

(** No call of the transpile-only path throws: the compiler returns from
    every call, names an output path, and a second one when it emits a
    source map, and what it emits can be written. *)
Definition neverThrows (data : Worker.WorkerOptions)
    (JSON_parse : string -> option Worker.json)
    (JSON_stringify : Worker.json -> string)
    {Config : Type} (ts : Worker.Compiler Config) : Prop :=
  (forall exists_ read path,
      exists parsed,
        Worker.ts_getParsedCommandLineOfConfigFile ts exists_ read path
        = JS.Ok parsed)
  /\ forall (config : Config) (inputPath content : string),
       exists outputPath rest output,
         Worker.ts_getOutputFileNames ts config inputPath
         = JS.Ok (outputPath :: rest)
         /\ Worker.ts_transpileModule ts content config inputPath
              (Worker.transformerOptions data) = JS.Ok output
         /\ writable data JSON_parse JSON_stringify outputPath
              (Worker.outputText output) = true
         /\ match Worker.sourceMapText output with
            | Some text =>
                exists mapPath rest',
                  rest = mapPath :: rest'
                  /\ writable data JSON_parse JSON_stringify mapPath text
                     = true
            | None => True
            end.

End Spec.

(** ** Concrete configurations and hosts used in the examples *)

Module Examples.

(** A target that renames scripts to [.mjs] and declarations to [.d.mts]. *)
Definition mjsTarget : Worker.WorkerOptions :=
  Worker.mkWorkerOptions (Some ".mjs") (Some ".d.mts") false false [].

(** A target whose script extension itself ends in [.js]. *)
Definition esmJsTarget : Worker.WorkerOptions :=
  Worker.mkWorkerOptions (Some ".esm.js") None false false [].

(** A target that renames scripts to [.cjs]. *)
Definition cjsTarget : Worker.WorkerOptions :=
  Worker.mkWorkerOptions (Some ".cjs") None false false [].

(** An in-memory host: the files as an association list, newest first. *)
Definition MemFS : Type := list (string * string).

Fixpoint memRead (fs : MemFS) (path : string) : option string :=
  match fs with
  | [] => None
  | (p, c) :: rest => if p =? path then Some c else memRead rest path
  end.

Definition memSystem : Worker.System MemFS :=
  Worker.mkSystem MemFS
    (fun fs path => match memRead fs path with Some _ => true | None => false end)
    memRead
    (fun path content fs => (path, content) :: fs)
    None.

(** A [SyntaxKind] table in which no named shape has kind 200 or 204. *)
Definition syntaxKinds : RewriteDtsImport.SyntaxKindTable :=
  RewriteDtsImport.mkSyntaxKind 11 102 80 272 278 213.

(** Stand-ins for [path.resolve] and [path.dirname], and two hosts: one
    without directories, one where [src/foo] is a directory. *)
Definition resolve (dir path : string) : string := dir ++ "/" ++ path.
Definition dirname (path : string) : string := "src".
Definition noDirectory (path : string) : bool := false.
Definition fooDirectory (path : string) : bool := path =? "src/./foo".

Definition parentDirectory (path : string) : bool := path =? "src/..".

Definition mjsOptions : RewriteImport.RewriteImportTransformerOptions :=
  Worker.transformerOptions mjsTarget.

(** A window of recent nodes with the kinds the type-position branch
    looks for: kind 200, visited after kind 204. *)
Definition typePositionWindow : list RewriteDtsImport.Node :=
  [RewriteDtsImport.OtherNode RewriteDtsImport.MappedType [];
   RewriteDtsImport.OtherNode RewriteDtsImport.TemplateLiteralTypeSpan []].

(** A serializer for objects whose values are strings, numbers and
    booleans that need no escaping, and a parser that knows the one source
    map of the examples. *)
Definition quote : string := String (ascii_of_nat 34) "".

Definition stringifyValue (j : Worker.json) : string :=
  match j with
  | Worker.JString s => quote ++ s ++ quote
  | Worker.JNumber r => r
  | Worker.JBool true => "true"
  | Worker.JBool false => "false"
  | _ => "null"
  end.

Fixpoint stringifyFields (fields : list (string * Worker.json)) : string :=
  match fields with
  | [] => ""
  | (k, v) :: rest =>
      quote ++ k ++ quote ++ ":" ++ stringifyValue v
      ++ match rest with
         | [] => ""
         | _ :: _ => "," ++ stringifyFields rest
         end
  end.

Definition stringify (j : Worker.json) : string :=
  match j with
  | Worker.JObject fields => "{" ++ stringifyFields fields ++ "}"
  | _ => stringifyValue j
  end.

Definition sourceMap : Worker.json :=
  Worker.JObject
    [("version", Worker.JNumber "3");
     ("file", Worker.JString "a.js");
     ("mappings", Worker.JString "AAAA")].

Definition parse (text : string) : option Worker.json :=
  if text =? stringify sourceMap then Some sourceMap else None.

(** A compiler that finds one input file and transpiles it to a script
    with a source map and one error diagnostic. *)
Definition errorDiagnostic : Worker.Diagnostic :=
  Worker.mkDiagnostic Worker.DiagError 1005 "';' expected.".

Definition compiler : Worker.Compiler (list string) :=
  Worker.mkCompiler (list string)
    (fun _ _ _ => JS.Ok (Some ["src/a.ts"], []))
    (fun config => config)
    (fun _ _ => JS.Ok ["out/a.js"; "out/a.js.map"])
    (fun _ _ _ _ =>
       JS.Ok (Worker.mkTranspileOutput "export {};" (Some [errorDiagnostic])
                (Some (stringify sourceMap)))).

(** A compiler that finds the declaration file [src/types.d.mts], which
    the test on [.d.ts] does not skip, and fails on it as [transpileModule]
    does when nothing is emitted. *)
Definition declarationCompiler : Worker.Compiler (list string) :=
  Worker.mkCompiler (list string)
    (fun _ _ _ => JS.Ok (Some ["src/types.d.mts"], []))
    (fun config => config)
    (fun _ _ => JS.Ok ["out/types.d.mjs"])
    (fun _ _ _ _ => JS.Throw (JS.Error "Output generation failed")).

Definition declarationWorld : Worker.World (list (string * string)) :=
  Worker.mkWorld [("src/types.d.mts", "export declare const x: number;")] [].

(** A window of recent nodes made of what TypeScript 5.1.6 calls a mapped
    type and a template literal type span, and the window an import type
    [import("..")] leaves: its literal type, visited after the import
    type itself. *)
Definition mappedTypeWindow : list RewriteDtsImport.Node :=
  [RewriteDtsImport.OtherNode TS516.MappedType [];
   RewriteDtsImport.OtherNode TS516.TemplateLiteralTypeSpan []].

Definition importTypeWindow : list RewriteDtsImport.Node :=
  [RewriteDtsImport.OtherNode TS516.LiteralType [];
   RewriteDtsImport.OtherNode TS516.ImportType []].

Definition transpileTarget : Worker.WorkerOptions :=
  Worker.mkWorkerOptions (Some ".mjs") None true false ["."].

Definition join (a b : string) : string := a ++ "/" ++ b.

Definition world0 : Worker.World MemFS :=
  Worker.mkWorld [("src/a.ts", "let x = ;")] [].

(** A builder that fails, for the paths [run] does not take in
    transpile-only mode. *)
Definition failingBuilder (w : Worker.World MemFS)
  : JS.result (Z * Worker.World MemFS) :=
  JS.Ok (1%Z, w).

End Examples.

(** ** Predicates on texts and trees used in further statements *)

Module Props.

Import RewriteDtsImport.

(** No occurrence of the source-mapping marker starts inside [body] when
    [body] is followed by [rest]. *)
Fixpoint markerFree (body rest : string) : bool :=
  match body with
  | EmptyString => true
  | String c body' =>
      negb (String.prefix Worker.SOURCE_MAPPING_URL (body ++ rest))
      && markerFree body' rest
  end.

(** The text holds no line terminator (line feed, carriage return,
    U+2028, U+2029). *)
Fixpoint singleLine (s : string) : bool :=
  match s with
  | EmptyString => true
  | String c rest => negb (Worker.lineTerminatorAt s) && singleLine rest
  end.

(** The text is empty or starts with a line terminator. *)
Definition lineEnd (s : string) : bool :=
  match s with
  | EmptyString => true
  | String _ _ => Worker.lineTerminatorAt s
  end.

(** The first byte of the text is not one of the bytes 80, A8, A9 that
    continue a line separator. *)
Definition noContinuation (s : string) : bool :=
  match s with
  | EmptyString => true
  | String c _ =>
      negb (Ascii.eqb c "128" || Ascii.eqb c "168" || Ascii.eqb c "169")
  end.

(** A module specifier that is not a relative string literal. *)
Definition bareSpecifier (n : Node) : bool :=
  match n with
  | StringLiteral text => negb (isRelativePath text)
  | _ => true
  end.

Definition firstBare (l : list Node) : bool :=
  match l with
  | [] => true
  | firstArg :: _ => bareSpecifier firstArg
  end.

(** Every specifier and every string literal the visitor can reach is
    neither relative nor [..]. *)
Fixpoint bare (n : Node) : bool :=
  match n with
  | StringLiteral text => negb (text =? "..") && negb (isRelativePath text)
  | ImportKeyword | Identifier _ => true
  | ImportDeclaration _ _ moduleSpecifier _ => bareSpecifier moduleSpecifier
  | ExportDeclaration _ _ _ None _ => true
  | ExportDeclaration _ _ _ (Some moduleSpecifier) _ =>
      bareSpecifier moduleSpecifier
  | CallExpression expression typeArguments arguments =>
      match expression with
      | ImportKeyword => firstBare arguments
      | Identifier escapedText =>
          if escapedText =? "require" then firstBare arguments
          else forallb bare typeArguments && forallb bare arguments
      | _ =>
          bare expression && forallb bare typeArguments
          && forallb bare arguments
      end
  | OtherNode _ children => forallb bare children
  end.

(** The tree with the text of every string literal blanked. *)
Fixpoint eraseLiterals (n : Node) : Node :=
  match n with
  | StringLiteral _ => StringLiteral ""
  | ImportKeyword => ImportKeyword
  | Identifier escapedText => Identifier escapedText
  | ImportDeclaration modifiers importClause moduleSpecifier assertClause =>
      ImportDeclaration (map eraseLiterals modifiers)
        (option_map eraseLiterals importClause)
        (eraseLiterals moduleSpecifier)
        (option_map eraseLiterals assertClause)
  | ExportDeclaration modifiers isTypeOnly exportClause moduleSpecifier
      assertClause =>
      ExportDeclaration (map eraseLiterals modifiers) isTypeOnly
        (option_map eraseLiterals exportClause)
        (option_map eraseLiterals moduleSpecifier)
        (option_map eraseLiterals assertClause)
  | CallExpression expression typeArguments arguments =>
      CallExpression (eraseLiterals expression)
        (map eraseLiterals typeArguments) (map eraseLiterals arguments)
  | OtherNode k children => OtherNode k (map eraseLiterals children)
  end.

End Props.

(** * Facts about the string built-ins *)

Section StringFacts.

Lemma length_app (s t : string) :
  String.length (s ++ t) = String.length s + String.length t.
Proof. induction s as [|c s IH]; simpl; [reflexivity | now rewrite IH]. Qed.

Lemma append_nil_r (s : string) : s ++ "" = s.
Proof. induction s as [|c s IH]; simpl; [reflexivity | now rewrite IH]. Qed.

Lemma append_assoc (s t u : string) : (s ++ t) ++ u = s ++ (t ++ u).
Proof. induction s as [|c s IH]; simpl; [reflexivity | now rewrite IH]. Qed.

Lemma substring_0_length (s : string) : substring 0 (String.length s) s = s.
Proof. induction s as [|c s IH]; simpl; [reflexivity | now rewrite IH]. Qed.

Lemma substring_0_app (p t : string) :
  substring 0 (String.length p) (p ++ t) = p.
Proof.
  induction p as [|c p IH]; simpl.
  - now destruct t.
  - now rewrite IH.
Qed.

Lemma substring_skip_app (p t : string) (n m : nat) :
  substring (String.length p + n) m (p ++ t) = substring n m t.
Proof. induction p as [|c p IH]; simpl; [reflexivity | exact IH]. Qed.

Lemma substring_split (s : string) (k : nat) :
  k <= String.length s ->
  s = substring 0 k s ++ substring k (String.length s - k) s.
Proof.
  revert k; induction s as [|c s IH]; intros k Hk; simpl in Hk.
  - assert (k = 0) by lia; subst; reflexivity.
  - destruct k as [|k].
    + cbn [substring String.length Nat.sub append].
      now rewrite substring_0_length.
    + cbn [substring String.length Nat.sub append].
      f_equal. apply IH. lia.
Qed.

Lemma endsWith_app (p suffix : string) : JS.endsWith (p ++ suffix) suffix = true.
Proof.
  unfold JS.endsWith. rewrite length_app.
  apply andb_true_intro; split.
  - apply Nat.leb_le; lia.
  - replace (String.length p + String.length suffix - String.length suffix)
      with (String.length p + 0) by lia.
    rewrite substring_skip_app, substring_0_length. apply String.eqb_refl.
Qed.

Lemma endsWith_empty (s : string) : JS.endsWith s "" = true.
Proof.
  pose proof (endsWith_app s "") as H. now rewrite append_nil_r in H.
Qed.

Lemma endsWith_inv (s suffix : string) :
  JS.endsWith s suffix = true ->
  s = substring 0 (String.length s - String.length suffix) s ++ suffix.
Proof.
  unfold JS.endsWith. intros H.
  apply andb_prop in H as [Hle Heq].
  apply Nat.leb_le in Hle. apply String.eqb_eq in Heq.
  rewrite (substring_split s (String.length s - String.length suffix)) at 1
    by lia.
  f_equal.
  replace (String.length s - (String.length s - String.length suffix))
    with (String.length suffix) by lia.
  exact Heq.
Qed.

Lemma endsWith_spec (s suffix : string) :
  JS.endsWith s suffix = true <-> exists p, s = p ++ suffix.
Proof.
  split.
  - intros H. eexists. apply endsWith_inv, H.
  - intros [p ->]. apply endsWith_app.
Qed.

Lemma trimSuffix_app (p suffix : string) :
  Utils.trimSuffix (p ++ suffix) suffix = p.
Proof.
  unfold Utils.trimSuffix. rewrite endsWith_app, length_app.
  replace (String.length p + String.length suffix - String.length suffix)
    with (String.length p) by lia.
  apply substring_0_app.
Qed.

Lemma trimSuffix_endsWith (s suffix : string) :
  JS.endsWith s suffix = true -> Utils.trimSuffix s suffix ++ suffix = s.
Proof.
  intros H. unfold Utils.trimSuffix. rewrite H.
  symmetry. apply endsWith_inv, H.
Qed.

Lemma trimSuffix_no_suffix (s suffix : string) :
  JS.endsWith s suffix = false -> Utils.trimSuffix s suffix = s.
Proof. intros H. unfold Utils.trimSuffix. now rewrite H. Qed.

(** Two suffixes of one string are comparable. *)
Lemma app_eq_app_suffix (a x b y : string) :
  a ++ x = b ++ y -> (exists c, x = c ++ y) \/ (exists c, y = c ++ x).
Proof.
  revert b; induction a as [|h a IH]; intros b H; simpl in H.
  - left. now exists b.
  - destruct b as [|h' b]; simpl in H.
    + right. exists (String h a). now rewrite <- H.
    + injection H as _ H. now apply IH in H.
Qed.

Lemma endsWith_comparable (s a b : string) :
  JS.endsWith s a = true -> JS.endsWith s b = true ->
  JS.endsWith a b = true \/ JS.endsWith b a = true.
Proof.
  intros Ha Hb.
  apply endsWith_spec in Ha as [p Hp]. apply endsWith_spec in Hb as [q Hq].
  rewrite Hp in Hq.
  destruct (app_eq_app_suffix _ _ _ _ Hq) as [[c ->] | [c ->]].
  - left. apply endsWith_app.
  - right. apply endsWith_app.
Qed.

Lemma endsWith_exclusive (s a b : string) :
  JS.endsWith a b = false -> JS.endsWith b a = false ->
  JS.endsWith s a = true -> JS.endsWith s b = false.
Proof.
  intros Hab Hba Ha.
  destruct (JS.endsWith s b) eqn:Hb; [|reflexivity].
  destruct (endsWith_comparable s a b Ha Hb) as [H | H]; congruence.
Qed.

Lemma prefix_app (p s t : string) :
  String.prefix p s = true -> String.prefix p (s ++ t) = true.
Proof.
  revert s; induction p as [|c p IH]; intros s H.
  - now destruct (s ++ t).
  - destruct s as [|d s]; simpl in *; [discriminate|].
    destruct (ascii_dec c d); [now apply IH | discriminate].
Qed.

Lemma startsWith_app (s t p : string) :
  JS.startsWith s p = true -> JS.startsWith (s ++ t) p = true.
Proof. apply prefix_app. Qed.

End StringFacts.

(** * Path policy ([Worker.rewritePath]) *)

Section PathPolicy.

Variable data : Worker.WorkerOptions.

Local Abbreviation rewritePath := (Worker.rewritePath data).

(** No role suffix is a suffix of an extension that does not clash with
    it, whatever base the extension is appended to. *)
Lemma endsWith_app_no_clash (base e suffix : string) :
  Spec.suffixClash e suffix = false ->
  JS.endsWith (base ++ e) suffix = false.
Proof.
  unfold Spec.suffixClash. intros H.
  apply orb_false_elim in H as [H1 H2].
  apply (endsWith_exclusive (base ++ e) e suffix H1 H2).
  apply endsWith_app.
Qed.

Lemma rewritePath_no_role (path : string) (ignoreDts : bool) :
  JS.endsWith path Worker.JS_EXT = false ->
  JS.endsWith path Worker.JS_MAP_EXT = false ->
  JS.endsWith path Worker.DTS_EXT = false ->
  JS.endsWith path Worker.DTS_MAP_EXT = false ->
  rewritePath path ignoreDts = path.
Proof.
  intros H1 H2 H3 H4. unfold Worker.rewritePath.
  rewrite H1, H2, H3, H4. now destruct ignoreDts.
Qed.

Lemma rewritePath_js (path : string) (ignoreDts : bool) :
  JS.endsWith path Worker.JS_EXT = true ->
  rewritePath path ignoreDts = Worker.getJSPath data path.
Proof. intros H. unfold Worker.rewritePath. now rewrite H. Qed.

Lemma dts_not_js (path : string) :
  JS.endsWith path Worker.DTS_EXT = true ->
  JS.endsWith path Worker.JS_EXT = false
  /\ JS.endsWith path Worker.JS_MAP_EXT = false.
Proof.
  intros H; split;
    apply (endsWith_exclusive path Worker.DTS_EXT); auto.
Qed.

Lemma dts_map_not_js (path : string) :
  JS.endsWith path Worker.DTS_MAP_EXT = true ->
  JS.endsWith path Worker.JS_EXT = false
  /\ JS.endsWith path Worker.JS_MAP_EXT = false
  /\ JS.endsWith path Worker.DTS_EXT = false.
Proof.
  intros H; repeat split;
    apply (endsWith_exclusive path Worker.DTS_MAP_EXT); auto.
Qed.

Lemma js_map_not_js (path : string) :
  JS.endsWith path Worker.JS_MAP_EXT = true ->
  JS.endsWith path Worker.JS_EXT = false
  /\ JS.endsWith path Worker.DTS_EXT = false.
Proof.
  intros H; split;
    apply (endsWith_exclusive path Worker.JS_MAP_EXT); auto.
Qed.

(** C7: a path ending in [.d.ts] or [.d.ts.map] is returned unchanged by
    [rewritePath] when [ignoreDts] is true, for every target
    configuration. *)
Theorem rewritePath_ignoreDts_declaration (path : string) :
  JS.endsWith path Worker.DTS_EXT = true
  \/ JS.endsWith path Worker.DTS_MAP_EXT = true ->
  rewritePath path true = path.
Proof.
  intros [H | H].
  - destruct (dts_not_js path H) as [H1 H2].
    unfold Worker.rewritePath. now rewrite H1, H2.
  - destruct (dts_map_not_js path H) as (H1 & H2 & _).
    unfold Worker.rewritePath. now rewrite H1, H2.
Qed.

(** C6 (amended): for a path ending in [.js], [rewritePath] ends in the
    configured script extension when one is set, and is the identity when
    none is set (undefined or empty); a second application changes nothing
    when no extension is set or when the extension is stable: [.js]
    itself, or an extension such as [.mjs] or [.cjs] that is neither a
    suffix of nor has as a suffix one of [.js], [.js.map], [.d.ts],
    [.d.ts.map]. *)
Theorem rewritePath_script (path : string) :
  JS.endsWith path Worker.JS_EXT = true ->
  match Worker.extname data with
  | Some e =>
      JS.endsWith (rewritePath path false) e = true
      /\ (e = "" -> rewritePath path false = path)
      /\ (Spec.stableExtension e = true \/ e = "" ->
          rewritePath (rewritePath path false) false
          = rewritePath path false)
  | None =>
      rewritePath path false = path
      /\ rewritePath (rewritePath path false) false = rewritePath path false
  end.
Proof.
  intros Hjs. rewrite !(rewritePath_js path false Hjs).
  unfold Worker.getJSPath.
  destruct (Worker.extname data) as [e|] eqn:He.
  - destruct (String.eqb_spec e "") as [->|Hne].
    + simpl. split; [apply endsWith_empty|]. split; [reflexivity|].
      intros _. rewrite (rewritePath_js path false Hjs).
      unfold Worker.getJSPath. now rewrite He.
    + split; [apply endsWith_app|]. split; [congruence|].
      intros [Hst | ->]; [|congruence].
      unfold Spec.stableExtension in Hst.
      apply orb_prop in Hst as [Heq | Hst].
      * apply String.eqb_eq in Heq. subst e.
        rewrite (trimSuffix_endsWith path Worker.JS_EXT Hjs).
        rewrite (rewritePath_js path false Hjs).
        unfold Worker.getJSPath. rewrite He. simpl.
        apply (trimSuffix_endsWith path Worker.JS_EXT Hjs).
      * apply negb_true_iff in Hst. simpl in Hst.
        apply orb_false_elim in Hst as [C1 Hst].
        apply orb_false_elim in Hst as [C2 Hst].
        apply orb_false_elim in Hst as [C3 Hst].
        apply orb_false_elim in Hst as [C4 _].
        apply rewritePath_no_role; now apply endsWith_app_no_clash.
  - split; [reflexivity|].
    rewrite (rewritePath_js path false Hjs).
    unfold Worker.getJSPath. now rewrite He.
Qed.

End PathPolicy.

Lemma rewritePath_ignoreDts_declaration_witness :
  JS.endsWith "lib/lib.dom.d.ts" Worker.DTS_EXT = true
  /\ Worker.rewritePath Examples.mjsTarget "lib/lib.dom.d.ts" true
     = "lib/lib.dom.d.ts".
Proof.
  split; [reflexivity|].
  apply (rewritePath_ignoreDts_declaration Examples.mjsTarget).
  left; reflexivity.
Defined.

Lemma rewritePath_script_witness :
  JS.endsWith "out/a.js" Worker.JS_EXT = true
  /\ JS.endsWith (Worker.rewritePath Examples.mjsTarget "out/a.js" false) ".mjs"
     = true
  /\ Worker.rewritePath Examples.mjsTarget
       (Worker.rewritePath Examples.mjsTarget "out/a.js" false) false
     = Worker.rewritePath Examples.mjsTarget "out/a.js" false.
Proof.
  split; [reflexivity|].
  pose proof (rewritePath_script Examples.mjsTarget "out/a.js" eq_refl) as H.
  simpl in H. destruct H as (H1 & _ & H3).
  split; [exact H1 | apply H3; left; reflexivity].
Defined.

(** C6, as stated, fails: with the script extension [.esm.js] the path
    [out/a.js] becomes [out/a.esm.js], and a second application yields
    [out/a.esm.esm.js]. *)
Lemma rewritePath_script_not_idempotent :
  JS.endsWith "out/a.js" Worker.JS_EXT = true
  /\ Worker.rewritePath Examples.esmJsTarget "out/a.js" false = "out/a.esm.js"
  /\ Worker.rewritePath Examples.esmJsTarget "out/a.esm.js" false
     = "out/a.esm.esm.js"
  /\ Worker.rewritePath Examples.esmJsTarget
       (Worker.rewritePath Examples.esmJsTarget "out/a.js" false) false
     <> Worker.rewritePath Examples.esmJsTarget "out/a.js" false.
Proof.
  repeat split; try reflexivity. vm_compute. discriminate.
Qed.

(** * The file-system adapter ([Worker.createSystem]) *)

Section AdapterFacts.

Variable data : Worker.WorkerOptions.
Variable FS : Type.
Variable sys : Worker.System FS.

Lemma fold_left_orb (f : string -> bool) (l : list string) (acc : bool) :
  fold_left (fun result path => result || f path) l acc = acc || existsb f l.
Proof.
  revert acc; induction l as [|x l IH]; intros acc; simpl.
  - now rewrite orb_false_r.
  - rewrite IH. now rewrite orb_assoc.
Qed.

Lemma fold_left_firstRead_Some f l r :
  fold_left (Worker.firstRead f) l (Some r) = Some r.
Proof. induction l as [|x l IH]; simpl; auto. Qed.

Lemma fold_left_firstRead_spec f l content :
  fold_left (Worker.firstRead f) l None = Some content <->
  exists before c after,
    l = (before ++ c :: after)%list
    /\ Forall (fun b => f b = None) before
    /\ f c = Some content.
Proof.
  induction l as [|x l IH]; simpl.
  - split; [discriminate|].
    intros (before & c & after & H & _). now destruct before.
  - destruct (f x) as [r|] eqn:Hx.
    + rewrite fold_left_firstRead_Some. split.
      * intros [= ->]. exists [], x, l. repeat split; auto.
      * intros (before & c & after & Hl & Hb & Hc).
        destruct before as [|b before]; simpl in Hl; injection Hl as -> ->.
        -- congruence.
        -- inversion Hb; congruence.
    + rewrite IH. split.
      * intros (before & c & after & -> & Hb & Hc).
        exists (x :: before), c, after. repeat split; auto.
      * intros (before & c & after & Hl & Hb & Hc).
        destruct before as [|b before]; simpl in Hl; injection Hl as -> ->.
        -- congruence.
        -- exists before, c, after. inversion Hb. repeat split; auto.
Qed.

Lemma fold_left_firstRead_None f l :
  fold_left (Worker.firstRead f) l None = None <-> Forall (fun c => f c = None) l.
Proof.
  induction l as [|x l IH]; simpl.
  - split; auto.
  - destruct (f x) as [r|] eqn:Hx.
    + rewrite fold_left_firstRead_Some. split; [discriminate|].
      intros H; inversion H; congruence.
    + rewrite IH. split.
      * intros H; constructor; auto.
      * intros H; now inversion H.
Qed.

(** C5: the candidates of [fileExists] and [readFile] are the path
    rewritten with [ignoreDts = true], followed by the original path
    exactly when it ends in [.js]; [fileExists] holds if and only if the
    host has one of the candidates; [readFile] returns what the host reads
    at the first candidate it can read, and nothing if it can read none. *)
Theorem read_candidates (fs : FS) (path : string) :
  let candidates := Worker.getReadPaths data path in
  candidates
  = Worker.rewritePath data path true
    :: (if JS.endsWith path Worker.JS_EXT then [path] else [])
  /\ (Worker.fileExists data FS sys fs path = true <->
      exists c, In c candidates /\ Worker.sys_fileExists sys fs c = true)
  /\ (forall content,
        Worker.readFile data FS sys fs path = Some content <->
        exists before c after,
          candidates = (before ++ c :: after)%list
          /\ Forall (fun b => Worker.sys_readFile sys fs b = None) before
          /\ Worker.sys_readFile sys fs c = Some content)
  /\ (Worker.readFile data FS sys fs path = None <->
      Forall (fun c => Worker.sys_readFile sys fs c = None) candidates).
Proof.
  intros candidates. split; [|split; [|split]].
  - unfold candidates, Worker.getReadPaths.
    now destruct (JS.endsWith path Worker.JS_EXT).
  - unfold Worker.fileExists. fold candidates.
    rewrite fold_left_orb. simpl. apply existsb_exists.
  - intros content. unfold Worker.readFile. fold candidates.
    apply (fold_left_firstRead_spec (Worker.sys_readFile sys fs)).
  - unfold Worker.readFile. fold candidates.
    apply (fold_left_firstRead_None (Worker.sys_readFile sys fs)).
Qed.

Lemma getField_setField_same key v fields :
  Worker.getField key (Worker.setField key v fields) = Some v.
Proof.
  induction fields as [|[k w] rest IH]; simpl.
  - now rewrite String.eqb_refl.
  - destruct (k =? key) eqn:E; simpl; rewrite E; auto.
Qed.

Lemma getField_setField_other key v fields k' :
  k' <> key ->
  Worker.getField k' (Worker.setField key v fields) = Worker.getField k' fields.
Proof.
  intros Hne. induction fields as [|[k w] rest IH]; simpl.
  - apply String.eqb_neq in Hne. rewrite String.eqb_sym. now rewrite Hne.
  - destruct (k =? key) eqn:E; simpl.
    + apply String.eqb_eq in E. subst k.
      apply String.eqb_neq in Hne. rewrite String.eqb_sym. now rewrite Hne.
    + now rewrite IH.
Qed.

Lemma setField_keys key v fields w :
  Worker.getField key fields = Some w ->
  map fst (Worker.setField key v fields) = map fst fields.
Proof.
  induction fields as [|[k u] rest IH]; simpl; [discriminate|].
  destruct (k =? key) eqn:E; simpl; [reflexivity|].
  intros H. now rewrite IH.
Qed.

Variable JSON_parse : string -> option Worker.json.
Variable JSON_stringify : Worker.json -> string.

(** C9: writing a path that ends in [.js.map] or [.d.ts.map] whose content
    parses to an object with a string [file] hands the host, at the
    rewritten path, the serialization of an object that has the rewritten
    path as its [file] and, apart from [file], the same fields with the
    same values in the same order. *)
Theorem writeFile_map (path content : string) (fs : FS)
    (fields : list (string * Worker.json)) (file : string) :
  JS.endsWith path Worker.JS_MAP_EXT = true
  \/ JS.endsWith path Worker.DTS_MAP_EXT = true ->
  JSON_parse content = Some (Worker.JObject fields) ->
  Worker.getField "file" fields = Some (Worker.JString file) ->
  exists fields',
    Worker.writeFile data JSON_parse JSON_stringify FS sys path content fs
    = JS.Ok (Worker.sys_writeFile sys (Worker.rewritePath data path false)
               (JSON_stringify (Worker.JObject fields')) fs)
    /\ Worker.getField "file" fields'
       = Some (Worker.JString (Worker.rewritePath data file false))
    /\ (forall key, key <> "file" ->
          Worker.getField key fields' = Worker.getField key fields)
    /\ map fst fields' = map fst fields.
Proof.
  intros Hmap Hparse Hfile.
  exists (Worker.setField "file"
            (Worker.JString (Worker.rewritePath data file false)) fields).
  split; [|split; [|split]].
  - assert (Hno : JS.endsWith path Worker.JS_EXT
                  || JS.endsWith path Worker.DTS_EXT = false).
    { destruct Hmap as [H | H].
      - destruct (js_map_not_js path H) as [-> ->]. reflexivity.
      - destruct (dts_map_not_js path H) as (-> & _ & ->). reflexivity. }
    assert (Hyes : JS.endsWith path Worker.JS_MAP_EXT
                   || JS.endsWith path Worker.DTS_MAP_EXT = true).
    { destruct Hmap as [-> | ->]; [reflexivity | apply orb_true_r]. }
    unfold Worker.writeFile. rewrite Hno, Hyes.
    unfold Worker.rewriteSourceMap. rewrite Hparse, Hfile. reflexivity.
  - apply getField_setField_same.
  - intros key Hne. now apply getField_setField_other.
  - eapply setField_keys; eauto.
Qed.

End AdapterFacts.

(** * The transpile-only path ([Worker.run]) *)

Section TranspileOnly.

Variable data : Worker.WorkerOptions.
Variable JSON_parse : string -> option Worker.json.
Variable JSON_stringify : Worker.json -> string.
Variable FS : Type.
Variable sys : Worker.System FS.
Variable Config : Type.
Variable ts : Worker.Compiler Config.
Variable join : string -> string -> string.
Variable builder_build : Worker.World FS -> JS.result (Z * Worker.World FS).
Variable builder_clean : Worker.World FS -> JS.result (Z * Worker.World FS).

Local Abbreviation writeFile :=
  (Worker.writeFile data JSON_parse JSON_stringify FS sys).
Local Abbreviation transpileFile :=
  (Worker.transpileFile data JSON_parse JSON_stringify FS sys Config ts).
Local Abbreviation transpileFiles :=
  (Worker.transpileFiles data JSON_parse JSON_stringify FS sys Config ts).
Local Abbreviation transpileProject :=
  (Worker.transpileProject data JSON_parse JSON_stringify FS sys Config ts join).
Local Abbreviation transpileProjects :=
  (Worker.transpileProjects data JSON_parse JSON_stringify FS sys Config ts
     join).
Local Abbreviation run :=
  (Worker.run data JSON_parse JSON_stringify FS sys Config ts join
     builder_build builder_clean).

(** The test that makes the loop skip an input path. *)
Local Abbreviation skipped w inputPath :=
  (negb (Worker.fileExists data FS sys (Worker.fs w) inputPath)
   || JS.endsWith inputPath ".d.ts").

(** The content handed to [transpileModule] for an input path. *)
Local Abbreviation contentOf w inputPath :=
  (match Worker.readFile data FS sys (Worker.fs w) inputPath with
   | Some c => c
   | None => ""
   end).

(** The diagnostics of an output, [output.diagnostics ?? []]. *)
Local Abbreviation diagnosticsOf output :=
  (match Worker.diagnostics output with
   | Some ds => ds
   | None => []
   end).

(** The call that parses the configuration of a project. *)
Local Abbreviation parseOf w project :=
  (Worker.ts_getParsedCommandLineOfConfigFile ts
     (Worker.fileExists data FS sys (Worker.fs w))
     (Worker.readFile data FS sys (Worker.fs w))
     (if Worker.fileExists data FS sys (Worker.fs w) project then project
      else join project "tsconfig.json")).

Local Abbreviation extends w w' :=
  (exists ds, Worker.reported w' = (Worker.reported w ++ ds)%list).

Lemma extends_refl (w : Worker.World FS) : extends w w.
Proof. exists []. now rewrite app_nil_r. Qed.

Lemma extends_trans (w1 w2 w3 : Worker.World FS) :
  extends w1 w2 -> extends w2 w3 -> extends w1 w3.
Proof.
  intros [d1 H1] [d2 H2]. exists (d1 ++ d2)%list.
  now rewrite H2, H1, app_assoc.
Qed.

Lemma writeFile_writable (path content : string) (fs : FS) :
  Spec.writable data JSON_parse JSON_stringify path content = true ->
  exists fs', writeFile path content fs = JS.Ok fs'.
Proof.
  unfold Spec.writable, Worker.writeFile. intros H.
  destruct (JS.endsWith path Worker.JS_EXT || JS.endsWith path Worker.DTS_EXT).
  - simpl. eauto.
  - destruct (JS.endsWith path Worker.JS_MAP_EXT
              || JS.endsWith path Worker.DTS_MAP_EXT).
    + destruct (Worker.rewriteSourceMap data JSON_parse JSON_stringify content);
        [simpl; eauto | discriminate].
    + simpl. eauto.
Qed.

(** A file that is not skipped and whose iteration returns has been
    transpiled, and its diagnostics have been appended to the log. *)
Lemma transpileFile_reported config inputPath w w' :
  transpileFile config inputPath w = JS.Ok w' ->
  skipped w inputPath = false ->
  exists output,
    Worker.ts_transpileModule ts (contentOf w inputPath) config inputPath
      (Worker.transformerOptions data) = JS.Ok output
    /\ Worker.reported w'
       = (Worker.reported w ++ diagnosticsOf output)%list.
Proof.
  unfold Worker.transpileFile. intros H Hskip. rewrite Hskip in H.
  destruct (Worker.ts_getOutputFileNames ts config inputPath)
    as [outputs|e]; [|discriminate].
  cbn [JS.bind] in H.
  destruct (Worker.ts_transpileModule ts _ config inputPath _)
    as [output|e]; [|discriminate].
  cbn [JS.bind] in H. exists output. split; [reflexivity|].
  cbn [Worker.reportDiagnostics Worker.fs Worker.reported] in H.
  destruct (nth_error outputs 0) as [outputPath|]; [|discriminate].
  destruct (Worker.writeFile _ _ _ _ _ outputPath _ _) as [fs1|e];
    [|discriminate].
  cbn [JS.bind] in H.
  destruct (Worker.sourceMapText output) as [text|].
  - destruct (nth_error outputs 1) as [mapPath|]; [|discriminate].
    destruct (Worker.writeFile _ _ _ _ _ mapPath _ _) as [fs2|e];
      [|discriminate].
    cbn [JS.bind] in H. now injection H as <-.
  - now injection H as <-.
Qed.

Lemma transpileFile_extends config inputPath w w' :
  transpileFile config inputPath w = JS.Ok w' -> extends w w'.
Proof.
  intros H. destruct (skipped w inputPath) eqn:Hskip.
  - unfold Worker.transpileFile in H. rewrite Hskip in H.
    injection H as <-. apply extends_refl.
  - destruct (transpileFile_reported _ _ _ _ H Hskip) as (output & _ & Hr).
    eauto.
Qed.

Lemma transpileFiles_extends config fileNames w w' :
  transpileFiles config fileNames w = JS.Ok w' -> extends w w'.
Proof.
  revert w. induction fileNames as [|f rest IH]; intros w; simpl.
  - intros [= <-]. apply extends_refl.
  - destruct (transpileFile config f w) as [w1|e] eqn:Hf; [|discriminate].
    simpl. intros H. eapply extends_trans; [|apply IH, H].
    now apply transpileFile_extends in Hf.
Qed.

Lemma transpileProject_extends project w w' :
  transpileProject project w = JS.Ok w' -> extends w w'.
Proof.
  unfold Worker.transpileProject.
  destruct (Worker.ts_getParsedCommandLineOfConfigFile _ _ _ _)
    as [[[config|] ds]|e]; cbn [JS.bind]; [| |discriminate].
  - intros H. apply transpileFiles_extends in H.
    eapply extends_trans; [|exact H]. now exists ds.
  - intros [= <-]. now exists ds.
Qed.

Lemma transpileProjects_extends ps w w' :
  transpileProjects ps w = JS.Ok w' -> extends w w'.
Proof.
  revert w. induction ps as [|p rest IH]; intros w; simpl.
  - intros [= <-]. apply extends_refl.
  - destruct (transpileProject p w) as [w1|e] eqn:Hp; [|discriminate].
    simpl. intros H. eapply extends_trans; [|apply IH, H].
    now apply transpileProject_extends in Hp.
Qed.

(** The loops over files and over projects run their list in order. *)
Lemma transpileFiles_app config (l1 l2 : list string) w :
  transpileFiles config (l1 ++ l2)%list w
  = JS.bind (transpileFiles config l1 w) (transpileFiles config l2).
Proof.
  revert w. induction l1 as [|f l1 IH]; intros w; [reflexivity|].
  cbn [List.app Worker.transpileFiles].
  destruct (transpileFile config f w) as [w1|e]; [|reflexivity].
  cbn [JS.bind]. apply IH.
Qed.

Lemma transpileProjects_app (l1 l2 : list string) w :
  transpileProjects (l1 ++ l2)%list w
  = JS.bind (transpileProjects l1 w) (transpileProjects l2).
Proof.
  revert w. induction l1 as [|p l1 IH]; intros w; [reflexivity|].
  cbn [List.app Worker.transpileProjects].
  destruct (transpileProject p w) as [w1|e]; [|reflexivity].
  cbn [JS.bind]. apply IH.
Qed.

Lemma transpileFile_total config inputPath w :
  Spec.neverThrows data JSON_parse JSON_stringify ts ->
  exists w', transpileFile config inputPath w = JS.Ok w'.
Proof.
  intros [_ Hw]. unfold Worker.transpileFile.
  destruct (skipped w inputPath); [eauto|].
  destruct (Hw config inputPath (contentOf w inputPath))
    as (outputPath & rest & output & -> & -> & Hout & Hmap).
  cbn [JS.bind nth_error].
  cbn [Worker.reportDiagnostics Worker.fs Worker.reported].
  match goal with
  | |- context [Worker.writeFile _ _ _ _ _ outputPath ?c ?f] =>
      destruct (writeFile_writable outputPath c f Hout) as [fs1 ->]
  end.
  cbn [JS.bind].
  destruct (Worker.sourceMapText output) as [text|]; [|eauto].
  destruct Hmap as (mapPath & rest' & -> & Hmap). cbn [nth_error].
  destruct (writeFile_writable mapPath text fs1 Hmap) as [fs2 ->].
  cbn [JS.bind]. eauto.
Qed.

Lemma transpileFiles_total config fileNames w :
  Spec.neverThrows data JSON_parse JSON_stringify ts ->
  exists w', transpileFiles config fileNames w = JS.Ok w'.
Proof.
  intros Hw. revert w.
  induction fileNames as [|f rest IH]; intros w; simpl; [eauto|].
  destruct (transpileFile_total config f w Hw) as [w1 ->]. simpl. apply IH.
Qed.

Lemma transpileProject_total project w :
  Spec.neverThrows data JSON_parse JSON_stringify ts ->
  exists w', transpileProject project w = JS.Ok w'.
Proof.
  intros Hw. unfold Worker.transpileProject.
  destruct Hw as [Hparse Hfiles].
  destruct (Hparse (Worker.fileExists data FS sys (Worker.fs w))
              (Worker.readFile data FS sys (Worker.fs w))
              (if Worker.fileExists data FS sys (Worker.fs w) project
               then project else join project "tsconfig.json"))
    as [[[config|] ds] ->]; cbn [JS.bind]; [|eauto].
  apply transpileFiles_total. now split.
Qed.

Lemma transpileProjects_total ps w :
  Spec.neverThrows data JSON_parse JSON_stringify ts ->
  exists w', transpileProjects ps w = JS.Ok w'.
Proof.
  intros Hw. revert w.
  induction ps as [|p rest IH]; intros w; simpl; [eauto|].
  destruct (transpileProject_total p w Hw) as [w1 ->]. simpl. apply IH.
Qed.


End TranspileOnly.

(** * Facts about [NodePath.extname] *)

Section ExtnameFacts.

Import NodePath.

Lemma chars_app (s t : string) :
  list_ascii_of_string (s ++ t)
  = (list_ascii_of_string s ++ list_ascii_of_string t)%list.
Proof. induction s as [|c s IH]; simpl; [reflexivity | now rewrite IH]. Qed.

Lemma chars_length (s : string) :
  List.length (list_ascii_of_string s) = String.length s.
Proof. induction s as [|c s IH]; simpl; [reflexivity | now rewrite IH]. Qed.

(** Once the first dot and the end of the last segment are known and a
    character has been seen before the dot, the rest of the scan changes
    neither. *)
Lemma extnameLoop_settled (r : list ascii) (i : nat) (st : ExtState)
    (sd e : nat) :
  startDot st = Some sd -> end_ st = Some e -> preDotState st <> PreDot0 ->
  startDot (extnameLoop r i st) = Some sd
  /\ end_ (extnameLoop r i st) = Some e
  /\ preDotState (extnameLoop r i st) <> PreDot0.
Proof.
  revert i st. induction r as [|c r IH]; intros i st Hsd He Hpre.
  - simpl. auto.
  - cbn [extnameLoop].
    destruct (isSlash c).
    + destruct (negb (matchedSlash st)); [simpl; auto | now apply IH].
    + rewrite He. destruct (isDot c); rewrite Hsd; apply IH; simpl; auto;
        discriminate.
Qed.

Lemma extnameResult_settled (p e : string) (st : ExtState) :
  startDot st = Some (String.length p) ->
  end_ st = Some (String.length p + String.length e) ->
  preDotState st <> PreDot0 ->
  2 <= String.length e ->
  extnameResult (p ++ e) st = e.
Proof.
  intros Hsd He Hpre Hlen. unfold extnameResult. rewrite Hsd, He.
  replace (String.length p + String.length e - String.length p)
    with (String.length e) by lia.
  assert (Hsub : substring (String.length p) (String.length e) (p ++ e) = e).
  { rewrite <- (Nat.add_0_r (String.length p)) at 1.
    rewrite substring_skip_app. apply substring_0_length. }
  rewrite Hsub.
  destruct (preDotState st); [congruence | | reflexivity].
  replace (String.length p =? Nat.pred (String.length p + String.length e))%nat
    with false; [reflexivity|].
  symmetry. apply Nat.eqb_neq. lia.
Qed.

Lemma string_snoc (p : string) :
  p <> "" -> exists q c, p = q ++ String c "".
Proof.
  induction p as [|a p IH]; [congruence|]. intros _.
  destruct p as [|b p].
  - now exists "", a.
  - destruct IH as (q & c & Hq); [discriminate|].
    exists (String a q), c. simpl. now rewrite Hq.
Qed.

Lemma endsWith_slash_snoc (q : string) (c : ascii) :
  JS.endsWith (q ++ String c "") "/" = false -> isSlash c = false.
Proof.
  intros H. unfold isSlash. destruct (Ascii.eqb_spec c "/") as [->|]; auto.
  now rewrite endsWith_app in H.
Qed.

(** The unfolding of one iteration, and the scan of [q ++ c ++ e] for the
    two extensions the rewriter can append and be stable under. *)
Lemma extnameLoop_cons (c : ascii) (r : list ascii) (i : nat) (st : ExtState) :
  extnameLoop (c :: r) i st
  = if isSlash c then
      if negb (matchedSlash st) then
        mkExtState (startDot st) (S i) (end_ st) (matchedSlash st)
                   (preDotState st)
      else extnameLoop r (Nat.pred i) st
    else
      let st1 :=
        match end_ st with
        | None => mkExtState (startDot st) (startPart st) (Some (S i))
                             false (preDotState st)
        | Some _ => st
        end in
      let st2 :=
        if isDot c then
          match startDot st1 with
          | None => mkExtState (Some i) (startPart st1) (end_ st1)
                               (matchedSlash st1) (preDotState st1)
          | Some _ =>
              mkExtState (startDot st1) (startPart st1) (end_ st1)
                         (matchedSlash st1) PreDot1
          end
        else
          match startDot st1 with
          | Some _ =>
              mkExtState (startDot st1) (startPart st1) (end_ st1)
                         (matchedSlash st1) PreDotNeg1
          | None => st1
          end in
      extnameLoop r (Nat.pred i) st2.
Proof. reflexivity. Qed.

Ltac scan_step :=
  rewrite extnameLoop_cons;
  cbn [isSlash isDot Ascii.eqb Bool.eqb initState
       startDot end_ matchedSlash preDotState startPart negb Nat.pred].

Ltac scan_suffix c Hc sd e :=
  rewrite !chars_app, !rev_app_distr, !List.length_app, !chars_length;
  cbn [list_ascii_of_string rev List.app List.length String.length];
  match goal with
  | |- context [Nat.pred ?n] => replace n with e by lia
  end;
  cbn [Nat.pred];
  repeat (progress scan_step);
  rewrite Hc;
  match goal with
  | |- context [extnameLoop ?r ?i ?st] =>
      let H1 := fresh in let H2 := fresh in let H3 := fresh in
      assert (preDotState st <> PreDot0) as H3
        by (destruct (isDot c); simpl; discriminate);
      assert (startDot st = Some sd) as H1 by (destruct (isDot c); reflexivity);
      assert (end_ st = Some e) as H2 by (destruct (isDot c); reflexivity);
      destruct (extnameLoop_settled r i st sd e H1 H2 H3) as (? & ? & ?)
  end.

Lemma extname_snoc_js (q : string) (c : ascii) :
  isSlash c = false -> extname ((q ++ String c "") ++ ".js") = ".js".
Proof.
  intros Hc. unfold extname.
  apply extnameResult_settled; [| | |simpl; lia];
    scan_suffix c Hc (S (String.length q))
                (S (S (S (S (String.length q)))));
    rewrite ?length_app; simpl String.length;
    try assumption;
    match goal with
    | H : ?x = Some _ |- ?x = Some _ => rewrite H; f_equal; lia
    end.
Qed.

Lemma extname_snoc_cjs (q : string) (c : ascii) :
  isSlash c = false -> extname ((q ++ String c "") ++ ".cjs") = ".cjs".
Proof.
  intros Hc. unfold extname.
  apply extnameResult_settled; [| | |simpl; lia];
    scan_suffix c Hc (S (String.length q))
                (S (S (S (S (S (String.length q))))));
    rewrite ?length_app; simpl String.length;
    try assumption;
    match goal with
    | H : ?x = Some _ |- ?x = Some _ => rewrite H; f_equal; lia
    end.
Qed.

(** A last segment that is exactly [.js] has no extension. *)
Lemma extname_slash_dot_js (b : string) : extname (b ++ "/.js") = "".
Proof.
  unfold extname.
  rewrite !chars_app, !rev_app_distr, !List.length_app, !chars_length.
  cbn [list_ascii_of_string rev List.app List.length String.length].
  replace (String.length b + 4) with (S (S (S (S (String.length b))))) by lia.
  cbn [Nat.pred].
  repeat (progress scan_step).
  reflexivity.
Qed.

Lemma extname_app_js (p : string) :
  p <> "" -> JS.endsWith p "/" = false -> extname (p ++ ".js") = ".js".
Proof.
  intros Hne Hslash. destruct (string_snoc p Hne) as (q & c & ->).
  apply extname_snoc_js. now apply endsWith_slash_snoc in Hslash.
Qed.

Lemma extname_app_cjs (p : string) :
  p <> "" -> JS.endsWith p "/" = false -> extname (p ++ ".cjs") = ".cjs".
Proof.
  intros Hne Hslash. destruct (string_snoc p Hne) as (q & c & ->).
  apply extname_snoc_cjs. now apply endsWith_slash_snoc in Hslash.
Qed.

Lemma extname_snoc_mjs (q : string) (c : ascii) :
  isSlash c = false -> extname ((q ++ String c "") ++ ".mjs") = ".mjs".
Proof.
  intros Hc. unfold extname.
  apply extnameResult_settled; [| | |simpl; lia];
    scan_suffix c Hc (S (String.length q))
                (S (S (S (S (S (String.length q))))));
    rewrite ?length_app; simpl String.length;
    try assumption;
    match goal with
    | H : ?x = Some _ |- ?x = Some _ => rewrite H; f_equal; lia
    end.
Qed.

Lemma extname_app_mjs (p : string) :
  p <> "" -> JS.endsWith p "/" = false -> extname (p ++ ".mjs") = ".mjs".
Proof.
  intros Hne Hslash. destruct (string_snoc p Hne) as (q & c & ->).
  apply extname_snoc_mjs. now apply endsWith_slash_snoc in Hslash.
Qed.

Lemma extname_snoc_json (q : string) (c : ascii) :
  isSlash c = false -> extname ((q ++ String c "") ++ ".json") = ".json".
Proof.
  intros Hc. unfold extname.
  apply extnameResult_settled; [| | |simpl; lia];
    scan_suffix c Hc (S (String.length q))
                (S (S (S (S (S (S (String.length q)))))));
    rewrite ?length_app; simpl String.length;
    try assumption;
    match goal with
    | H : ?x = Some _ |- ?x = Some _ => rewrite H; f_equal; lia
    end.
Qed.

Lemma extname_app_json (p : string) :
  p <> "" -> JS.endsWith p "/" = false -> extname (p ++ ".json") = ".json".
Proof.
  intros Hne Hslash. destruct (string_snoc p Hne) as (q & c & ->).
  apply extname_snoc_json. now apply endsWith_slash_snoc in Hslash.
Qed.

End ExtnameFacts.

(** * The declaration specifier rewriter: [updateModuleSpecifier] *)

Section UpdateModuleSpecifier.

Import RewriteDtsImport.

Variable options : RewriteImport.RewriteImportTransformerOptions.
Variable directoryExists : string -> bool.
Variable resolve : string -> string -> string.
Variable dirname : string -> string.
Variable resolveJsonModule : bool.
Variable sourceFileName : string.

Local Abbreviation update :=
  (updateModuleSpecifier options directoryExists resolve dirname
     resolveJsonModule sourceFileName).
Local Abbreviation isDir :=
  (isDirectory directoryExists resolve dirname sourceFileName).
Local Abbreviation scriptExt := (RewriteImport.extname options).

Lemma update_not_relative (text : string) :
  isRelativePath text = false -> update (StringLiteral text) = StringLiteral text.
Proof. intros H. unfold updateModuleSpecifier. now rewrite H. Qed.

Lemma update_cjs (text : string) :
  NodePath.extname text = ".cjs" ->
  update (StringLiteral text) = StringLiteral text.
Proof.
  intros H. unfold updateModuleSpecifier. rewrite H.
  now destruct (negb (isRelativePath text)).
Qed.

(** A relative text that ends in [.js], but not in [/.js], has the
    extension [.js]. *)
Lemma extname_js_of_suffix (text : string) :
  isRelativePath text = true ->
  JS.endsWith text ".js" = true ->
  JS.endsWith text "/.js" = false ->
  NodePath.extname text = ".js".
Proof.
  intros Hrel Hjs Hslash.
  apply endsWith_spec in Hjs as [b ->].
  apply extname_app_js.
  - intros ->. discriminate.
  - destruct (JS.endsWith b "/") eqn:Hb; [|reflexivity].
    apply endsWith_spec in Hb as [b' ->].
    rewrite append_assoc in Hslash. simpl in Hslash.
    now rewrite endsWith_app in Hslash.
Qed.

(** The rules of [updateModuleSpecifier] on a string literal, in order. *)
Lemma update_literal (text : string) :
  update (StringLiteral text)
  = StringLiteral
      (let ext := NodePath.extname text in
       if negb (isRelativePath text) then text
       else if ext =? ".cjs" then text
       else if isDir text then text ++ "/index" ++ scriptExt
       else if (ext =? ".json") && resolveJsonModule then text
       else if ext =? ".js"
            then Utils.trimSuffix text ".js" ++ scriptExt
            else text ++ scriptExt).
Proof.
  unfold updateModuleSpecifier. cbv zeta.
  destruct (negb (isRelativePath text)); [reflexivity|].
  destruct (NodePath.extname text =? ".cjs"); [reflexivity|].
  destruct (isDir text); [reflexivity|].
  unfold JSON_EXT, JS_EXT.
  destruct ((NodePath.extname text =? ".json") && resolveJsonModule);
    [reflexivity|].
  now destruct (NodePath.extname text =? ".js").
Qed.

(** C1 (amended): [updateModuleSpecifier] leaves a node that is not a
    string literal unchanged, and on a string literal applies, in this
    order: not relative, unchanged; extension [.cjs], unchanged; a
    directory, the text followed by [/index] and the configured script
    extension; extension [.json] with [resolveJsonModule], unchanged;
    otherwise the configured script extension is appended, after a trailing
    [.js] has been stripped when the extension of the text is [.js].  This
    agrees with stripping every trailing [.js] on all texts that do not end
    in [/.js]. *)
Theorem updateModuleSpecifier_rules :
  (forall node, isStringLiteral node = false -> update node = node)
  /\ (forall text,
        update (StringLiteral text)
        = StringLiteral
            (let ext := NodePath.extname text in
             if negb (isRelativePath text) then text
             else if ext =? ".cjs" then text
             else if isDir text then text ++ "/index" ++ scriptExt
             else if (ext =? ".json") && resolveJsonModule then text
             else if ext =? ".js"
                  then Utils.trimSuffix text ".js" ++ scriptExt
                  else text ++ scriptExt))
  /\ (forall text,
        JS.endsWith text "/.js" = false ->
        update (StringLiteral text)
        = StringLiteral
            (Spec.updateSpecifier scriptExt isDir resolveJsonModule text)).
Proof.
  split; [|split].
  - intros node H. destruct node; try reflexivity. discriminate.
  - exact update_literal.
  - intros text Hslash. unfold updateModuleSpecifier, Spec.updateSpecifier.
    destruct (isRelativePath text) eqn:Hrel; [|reflexivity]. cbn [negb].
    destruct (NodePath.extname text =? ".cjs"); [reflexivity|].
    destruct (isDir text); [reflexivity|].
    unfold JSON_EXT, JS_EXT.
    destruct ((NodePath.extname text =? ".json") && resolveJsonModule);
      [reflexivity|].
    destruct (String.eqb_spec (NodePath.extname text) ".js") as [He|He];
      [reflexivity|].
    rewrite trimSuffix_no_suffix; [reflexivity|].
    destruct (JS.endsWith text ".js") eqn:Hjs; [|reflexivity].
    exfalso. apply He. now apply extname_js_of_suffix.
Qed.

(** The second pass over a rewritten text, for the two stable script
    extensions. *)
Lemma update_again_js (out : string) :
  scriptExt = ".js" ->
  NodePath.extname out = ".js" ->
  JS.endsWith out ".js" = true ->
  isDir out = false ->
  update (StringLiteral out) = StringLiteral out.
Proof.
  intros Hext He Hjs Hdir. unfold updateModuleSpecifier.
  destruct (negb (isRelativePath out)); [reflexivity|].
  rewrite He, Hdir, Hext. unfold JS_EXT, JSON_EXT.
  change (".js" =? ".cjs") with false.
  change (".js" =? ".json") with false.
  change (".js" =? ".js") with true.
  cbn [andb].
  now rewrite (trimSuffix_endsWith out ".js" Hjs).
Qed.

Lemma startsWith_relative (text x : string) :
  isRelativePath text = true -> isRelativePath (text ++ x) = true.
Proof.
  unfold isRelativePath. intros H. apply orb_prop in H as [H | H].
  - now rewrite (startsWith_app text x "./" H).
  - rewrite (startsWith_app text x "../" H). apply orb_true_r.
Qed.

Lemma relative_nonempty (text : string) :
  isRelativePath text = true -> text <> "".
Proof. intros H ->. discriminate. Qed.

(** The first two characters of a relative text that ends in [.js] are
    not among its last three. *)
Lemma relative_base (b x : string) :
  isRelativePath (b ++ ".js") = true -> isRelativePath (b ++ x) = true.
Proof.
  unfold isRelativePath, JS.startsWith.
  destruct b as [|c1 [|c2 [|c3 b]]]; cbn [append String.prefix].
  - intros H. exfalso. revert H.
    destruct (ascii_dec "." "."); [|congruence].
    now destruct (ascii_dec "/" "j"); destruct (ascii_dec "." "j").
  - intros H. exfalso. revert H.
    destruct (ascii_dec "." c1); [|discriminate].
    destruct (ascii_dec "/" "."); [discriminate|].
    destruct (ascii_dec "." "."); [|congruence].
    now destruct (ascii_dec "/" "j").
  - destruct (ascii_dec "." c1); [|discriminate].
    destruct (ascii_dec "/" c2).
    + intros _. now destruct x.
    + destruct (ascii_dec "." c2); [|discriminate].
      destruct (ascii_dec "/" "."); discriminate.
  - destruct (ascii_dec "." c1); [|discriminate].
    destruct (ascii_dec "/" c2).
    + intros _. now destruct (b ++ x).
    + destruct (ascii_dec "." c2); [|discriminate].
      destruct (ascii_dec "/" c3); [|discriminate].
      intros _. now destruct (b ++ x).
Qed.

(** The second pass when the script extension is [.mjs]. *)
Lemma update_again_mjs (out : string) :
  scriptExt = ".mjs" ->
  isRelativePath out = true ->
  NodePath.extname out = ".mjs" ->
  isDir out = false ->
  update (StringLiteral out) = StringLiteral (out ++ ".mjs").
Proof.
  intros Hext Hrel He Hdir. unfold updateModuleSpecifier.
  rewrite Hrel, He, Hdir, Hext. reflexivity.
Qed.

(** C8 (amended): when [./foo] is a directory it is rewritten to
    [./foo/index] followed by the configured script extension, whatever
    that extension is.  For a relative specifier without trailing slash
    whose rewritten form does not itself name a directory: when the
    configured script extension is [.js] or [.cjs], rewriting the rewritten
    form changes nothing; when it is [.mjs], rewriting a rewritten form
    that differs from the original appends [.mjs] to it once more. *)
Theorem updateModuleSpecifier_fixed_point :
  (isDir "./foo" = true ->
   update (StringLiteral "./foo") = StringLiteral ("./foo/index" ++ scriptExt))
  /\ (scriptExt = ".js" \/ scriptExt = ".cjs" ->
      forall text,
        isRelativePath text = true ->
        JS.endsWith text "/" = false ->
        exists out,
          update (StringLiteral text) = StringLiteral out
          /\ (isDir out = false ->
              update (StringLiteral out) = StringLiteral out))
  /\ (scriptExt = ".mjs" ->
      forall text,
        isRelativePath text = true ->
        JS.endsWith text "/" = false ->
        exists out,
          update (StringLiteral text) = StringLiteral out
          /\ (out <> text -> isDir out = false ->
              update (StringLiteral out) = StringLiteral (out ++ ".mjs"))).
Proof.
  split; [|split].
  - intros Hdir. unfold updateModuleSpecifier. now rewrite Hdir.
  - intros Hext text Hrel Hslash.
    pose proof (relative_nonempty text Hrel) as Hne.
    pose proof update_literal as Hrules.
    rewrite (Hrules text). cbv zeta. rewrite Hrel. cbn [negb].
    eexists; split; [reflexivity|].
    destruct (String.eqb_spec (NodePath.extname text) ".cjs") as [Hcjs|Hcjs].
    { intros _. now apply update_cjs. }
    destruct (isDir text) eqn:Hdir.
    { intros Hout. destruct Hext as [He | He]; rewrite He in *.
      - apply update_again_js; auto.
        + rewrite <- append_assoc. apply extname_app_js.
          * now destruct text.
          * apply (endsWith_exclusive _ "/index" "/"); auto.
            apply endsWith_app.
        + rewrite <- append_assoc. apply endsWith_app.
      - apply update_cjs. rewrite <- append_assoc. apply extname_app_cjs.
        + now destruct text.
        + apply (endsWith_exclusive _ "/index" "/"); auto.
          apply endsWith_app. }
    destruct ((NodePath.extname text =? ".json") && resolveJsonModule) eqn:Hjson.
    { intros _. rewrite (Hrules text). cbv zeta. rewrite Hrel. cbn [negb].
      apply String.eqb_neq in Hcjs. now rewrite Hcjs, Hdir, Hjson. }
    destruct (String.eqb_spec (NodePath.extname text) ".js") as [Hjs|Hjs].
    + destruct (JS.endsWith text ".js") eqn:Hends.
      * (* text = b ++ ".js" *)
        pose proof Hends as Hb. apply endsWith_spec in Hb as [b Hb].
        assert (Hbne : b <> "").
        { intros ->. subst text. discriminate. }
        assert (Hbs : JS.endsWith b "/" = false).
        { destruct (JS.endsWith b "/") eqn:E; [|reflexivity].
          apply endsWith_spec in E as [b' ->].
          rewrite Hb, append_assoc in Hjs. simpl in Hjs.
          rewrite extname_slash_dot_js in Hjs. discriminate. }
        rewrite Hb, trimSuffix_app. intros Hout.
        destruct Hext as [He | He]; rewrite He in *.
        -- apply update_again_js; auto.
           ++ now rewrite <- Hb.
           ++ apply endsWith_app.
        -- apply update_cjs. now apply extname_app_cjs.
      * rewrite (trimSuffix_no_suffix _ _ Hends). intros Hout.
        destruct Hext as [He | He]; rewrite He in *.
        -- apply update_again_js; auto.
           ++ now apply extname_app_js.
           ++ apply endsWith_app.
        -- apply update_cjs. now apply extname_app_cjs.
    + intros Hout. destruct Hext as [He | He]; rewrite He in *.
      * apply update_again_js; auto.
        -- now apply extname_app_js.
        -- apply endsWith_app.
      * apply update_cjs. now apply extname_app_cjs.
  - intros Hext text Hrel Hslash.
    pose proof (relative_nonempty text Hrel) as Hne.
    rewrite (update_literal text). cbv zeta. rewrite Hrel. cbn [negb].
    eexists; split; [reflexivity|]. rewrite Hext.
    destruct (NodePath.extname text =? ".cjs"); [congruence|].
    destruct (isDir text) eqn:Hdir.
    { intros _ Hout. apply update_again_mjs; auto.
      - now apply startsWith_relative.
      - rewrite <- append_assoc. apply extname_app_mjs.
        + now destruct text.
        + apply (endsWith_exclusive _ "/index" "/"); auto.
          apply endsWith_app. }
    destruct ((NodePath.extname text =? ".json") && resolveJsonModule);
      [congruence|].
    destruct (String.eqb_spec (NodePath.extname text) ".js") as [Hjs|Hjs].
    + destruct (JS.endsWith text ".js") eqn:Hends.
      * pose proof Hends as Hb. apply endsWith_spec in Hb as [b Hb].
        assert (Hbne : b <> "").
        { intros ->. subst text. discriminate. }
        assert (Hbs : JS.endsWith b "/" = false).
        { destruct (JS.endsWith b "/") eqn:E; [|reflexivity].
          apply endsWith_spec in E as [b' ->].
          rewrite Hb, append_assoc in Hjs. simpl in Hjs.
          rewrite extname_slash_dot_js in Hjs. discriminate. }
        rewrite Hb, trimSuffix_app. intros _ Hout.
        apply update_again_mjs; auto.
        -- apply relative_base. now rewrite <- Hb.
        -- now apply extname_app_mjs.
      * rewrite (trimSuffix_no_suffix _ _ Hends). intros _ Hout.
        apply update_again_mjs; auto.
        -- now apply startsWith_relative.
        -- now apply extname_app_mjs.
    + intros _ Hout. apply update_again_mjs; auto.
      * now apply startsWith_relative.
      * now apply extname_app_mjs.
Qed.

End UpdateModuleSpecifier.

(** * The declaration specifier rewriter: [visitor] *)

Section Visitor.

Import RewriteDtsImport.

Variable options : RewriteImport.RewriteImportTransformerOptions.
Variable SyntaxKind : SyntaxKindTable.
Variable directoryExists : string -> bool.
Variable resolve : string -> string -> string.
Variable dirname : string -> string.
Variable resolveJsonModule : bool.
Variable sourceFileName : string.

Local Abbreviation visit :=
  (visitor options SyntaxKind directoryExists resolve dirname
     resolveJsonModule sourceFileName).
Local Abbreviation visitAll :=
  (visitNodes options SyntaxKind directoryExists resolve dirname
     resolveJsonModule sourceFileName).

(** Induction over the nodes [visitor] descends into. *)
Lemma Node_visit_ind (P : Node -> Prop) :
  (forall n,
      match n with
      | CallExpression _ _ _ | OtherNode _ _ => False
      | _ => True
      end -> P n) ->
  (forall e t a, P e -> Forall P t -> Forall P a -> P (CallExpression e t a)) ->
  (forall k c, Forall P c -> P (OtherNode k c)) ->
  forall n, P n.
Proof.
  intros Hleaf HCall HOther. fix IH 1.
  intros [text | | name | m ic spec ac | m t ec spec ac | e t a | k c];
    try (apply Hleaf; exact I).
  - apply HCall; [apply IH | |].
    + induction t as [|x xs IHl]; constructor; [apply IH | exact IHl].
    + induction a as [|x xs IHl]; constructor; [apply IH | exact IHl].
  - apply HOther.
    induction c as [|x xs IHl]; constructor; [apply IH | exact IHl].
Qed.

Lemma visitor_OtherNode k children r :
  visit (OtherNode k children) r
  = let (c', r1) := visitAll children (unshift3 (OtherNode k children) r) in
    (OtherNode k c', r1).
Proof. reflexivity. Qed.

Lemma visitor_CallExpression_children e t a r :
  match e with
  | ImportKeyword => False
  | Identifier name => name <> "require"
  | _ => True
  end ->
  visit (CallExpression e t a) r
  = let (e', r1) := visit e (unshift3 (CallExpression e t a) r) in
    let (t', r2) := visitAll t r1 in
    let (a', r3) := visitAll a r2 in
    (CallExpression e' t' a', r3).
Proof.
  intros H. destruct e; try reflexivity; try contradiction.
  apply String.eqb_neq in H. cbn [visitor]. rewrite H. reflexivity.
Qed.

Lemma unshift3_length (node : Node) (recentNodes : list Node) :
  List.length recentNodes <= 3 ->
  List.length (unshift3 node recentNodes) <= 3.
Proof.
  intros H. unfold unshift3.
  destruct recentNodes as [|a [|b [|c [|d r]]]]; simpl in *; lia.
Qed.

Lemma visitNodes_window (l : list Node) :
  Forall (fun n => forall r, List.length r <= 3 ->
                     List.length (snd (visit n r)) <= 3) l ->
  forall r, List.length r <= 3 -> List.length (snd (visitAll l r)) <= 3.
Proof.
  induction 1 as [|x xs Hx _ IH]; intros r Hr; [exact Hr|].
  cbn [visitNodes]. specialize (Hx r Hr).
  destruct (visit x r) as [x' r1]. cbn [snd] in Hx.
  specialize (IH r1 Hx). destruct (visitAll xs r1) as [xs' r2]. exact IH.
Qed.

(** The window of recent nodes never grows beyond three entries. *)
Lemma visitor_window (node : Node) :
  forall recentNodes,
    List.length recentNodes <= 3 ->
    List.length (snd (visit node recentNodes)) <= 3.
Proof.
  induction node as [n Hn | e t a IHe IHt IHa | k c IHc] using Node_visit_ind;
    intros r Hr.
  - pose proof (unshift3_length n r Hr) as Hu.
    destruct n; try contradiction; cbn [visitor].
    + destruct (typePositionShape _ _ _); exact Hu.
    + exact Hu.
    + exact Hu.
    + exact Hu.
    + destruct moduleSpecifier; exact Hu.
  - pose proof (unshift3_length (CallExpression e t a) r Hr) as Hu.
    assert (Hfirst :
      List.length
        (snd (match a with
              | [] => (CallExpression e t a, unshift3 (CallExpression e t a) r)
              | firstArg :: restArg =>
                  (CallExpression e t
                     (updateModuleSpecifier options directoryExists resolve
                        dirname resolveJsonModule sourceFileName firstArg
                      :: restArg),
                   unshift3 (CallExpression e t a) r)
              end)) <= 3) by (destruct a; exact Hu).
    assert (Hrec :
      List.length
        (snd (let (e', r1) := visit e (unshift3 (CallExpression e t a) r) in
              let (t', r2) := visitAll t r1 in
              let (a', r3) := visitAll a r2 in
              (CallExpression e' t' a', r3))) <= 3).
    { specialize (IHe _ Hu).
      destruct (visit e _) as [e' r1]. cbn [snd] in IHe.
      pose proof (visitNodes_window t IHt r1 IHe) as Ht.
      destruct (visitAll t r1) as [t' r2]. cbn [snd] in Ht.
      pose proof (visitNodes_window a IHa r2 Ht) as Ha.
      destruct (visitAll a r2) as [a' r3]. exact Ha. }
    destruct e; try exact Hrec; try exact Hfirst.
    cbn [visitor]. destruct (escapedText =? "require");
      [exact Hfirst | exact Hrec].
  - rewrite visitor_OtherNode.
    pose proof (unshift3_length (OtherNode k c) r Hr) as Hu.
    pose proof (visitNodes_window c IHc _ Hu) as Hc.
    destruct (visitAll c _) as [c' r1]. exact Hc.
Qed.


Local Abbreviation update :=
  (updateModuleSpecifier options directoryExists resolve dirname
     resolveJsonModule sourceFileName).
Local Abbreviation updateTypePosition :=
  (updateTypePositionLiteral options directoryExists resolve dirname
     resolveJsonModule sourceFileName).
Local Abbreviation isDir :=
  (isDirectory directoryExists resolve dirname sourceFileName).
Local Abbreviation scriptExt := (RewriteImport.extname options).


(** Only the [extname] field of the options reaches the rewritten text. *)
Lemma update_extname_only (o1 o2 : RewriteImport.RewriteImportTransformerOptions)
    (node : Node) :
  RewriteImport.extname o1 = RewriteImport.extname o2 ->
  updateModuleSpecifier o1 directoryExists resolve dirname resolveJsonModule
    sourceFileName node
  = updateModuleSpecifier o2 directoryExists resolve dirname resolveJsonModule
      sourceFileName node.
Proof. intros H. unfold updateModuleSpecifier. now rewrite H. Qed.

Lemma updateTypePosition_extname_only
    (o1 o2 : RewriteImport.RewriteImportTransformerOptions) (text : string) :
  RewriteImport.extname o1 = RewriteImport.extname o2 ->
  updateTypePositionLiteral o1 directoryExists resolve dirname
    resolveJsonModule sourceFileName text
  = updateTypePositionLiteral o2 directoryExists resolve dirname
      resolveJsonModule sourceFileName text.
Proof. intros H. unfold updateTypePositionLiteral. now rewrite H. Qed.

End Visitor.

Section VisitorOptions.

Import RewriteDtsImport.

Variable SyntaxKind : SyntaxKindTable.
Variable directoryExists : string -> bool.
Variable resolve : string -> string -> string.
Variable dirname : string -> string.
Variable resolveJsonModule : bool.
Variable sourceFileName : string.

Local Abbreviation visitWith o :=
  (visitor o SyntaxKind directoryExists resolve dirname
     resolveJsonModule sourceFileName).
Local Abbreviation visitAllWith o :=
  (visitNodes o SyntaxKind directoryExists resolve dirname
     resolveJsonModule sourceFileName).
Local Abbreviation updateWith o :=
  (updateModuleSpecifier o directoryExists resolve dirname
     resolveJsonModule sourceFileName).
Local Abbreviation isDir :=
  (isDirectory directoryExists resolve dirname sourceFileName).

Lemma visitNodes_extname_only o1 o2 (l : list Node) :
  Forall (fun n => forall r, visitWith o1 n r = visitWith o2 n r) l ->
  forall r, visitAllWith o1 l r = visitAllWith o2 l r.
Proof.
  induction 1 as [|x xs Hx _ IH]; intros r; [reflexivity|].
  cbn [visitNodes]. rewrite Hx. destruct (visitWith o2 x r) as [x' r1].
  now rewrite IH.
Qed.

Lemma visitor_extname_only o1 o2 :
  RewriteImport.extname o1 = RewriteImport.extname o2 ->
  forall node r, visitWith o1 node r = visitWith o2 node r.
Proof.
  intros He node.
  induction node as [n Hn | e t a IHe IHt IHa | k c IHc] using Node_visit_ind;
    intros r.
  - destruct n; try contradiction; cbn [visitor]; try reflexivity.
    + now rewrite (updateTypePosition_extname_only _ _ _ _ _ o1 o2 text He).
    + now rewrite (update_extname_only _ _ _ _ _ o1 o2 _ He).
    + destruct moduleSpecifier; [|reflexivity].
      now rewrite (update_extname_only _ _ _ _ _ o1 o2 _ He).
  - assert (Hfirst :
      match a with
      | [] => (CallExpression e t a, unshift3 (CallExpression e t a) r)
      | firstArg :: restArg =>
          (CallExpression e t (updateWith o1 firstArg :: restArg),
           unshift3 (CallExpression e t a) r)
      end
      = match a with
        | [] => (CallExpression e t a, unshift3 (CallExpression e t a) r)
        | firstArg :: restArg =>
            (CallExpression e t (updateWith o2 firstArg :: restArg),
             unshift3 (CallExpression e t a) r)
        end).
    { destruct a; [reflexivity|].
      now rewrite (update_extname_only _ _ _ _ _ o1 o2 _ He). }
    assert (Hrec :
      (let (e', r1) := visitWith o1 e (unshift3 (CallExpression e t a) r) in
       let (t', r2) := visitAllWith o1 t r1 in
       let (a', r3) := visitAllWith o1 a r2 in
       (CallExpression e' t' a', r3))
      = (let (e', r1) := visitWith o2 e (unshift3 (CallExpression e t a) r) in
         let (t', r2) := visitAllWith o2 t r1 in
         let (a', r3) := visitAllWith o2 a r2 in
         (CallExpression e' t' a', r3))).
    { rewrite IHe. destruct (visitWith o2 e _) as [e' r1].
      rewrite (visitNodes_extname_only o1 o2 t IHt).
      destruct (visitAllWith o2 t r1) as [t' r2].
      now rewrite (visitNodes_extname_only o1 o2 a IHa). }
    destruct e; try exact Hrec; try exact Hfirst.
    cbn [visitor]. destruct (escapedText =? "require");
      [exact Hfirst | exact Hrec].
  - rewrite !visitor_OtherNode.
    now rewrite (visitNodes_extname_only o1 o2 c IHc).
Qed.


End VisitorOptions.

(** * Concrete runs *)

Section ConcreteRuns.

Import RewriteDtsImport.
Import Examples.

Lemma writeFile_map_witness :
  (JS.endsWith "out/a.js.map" Worker.JS_MAP_EXT = true
   \/ JS.endsWith "out/a.js.map" Worker.DTS_MAP_EXT = true)
  /\ exists fields',
       Worker.writeFile mjsTarget parse stringify MemFS memSystem
         "out/a.js.map" (stringify sourceMap) []
       = JS.Ok (Worker.sys_writeFile memSystem
                  (Worker.rewritePath mjsTarget "out/a.js.map" false)
                  (stringify (Worker.JObject fields')) [])
       /\ Worker.getField "file" fields'
          = Some (Worker.JString (Worker.rewritePath mjsTarget "a.js" false))
       /\ (forall key, key <> "file" ->
             Worker.getField key fields'
             = Worker.getField key
                 [("version", Worker.JNumber "3");
                  ("file", Worker.JString "a.js");
                  ("mappings", Worker.JString "AAAA")])
       /\ map fst fields' = ["version"; "file"; "mappings"].
Proof.
  split; [left; reflexivity|].
  exact (writeFile_map mjsTarget MemFS memSystem parse stringify
           "out/a.js.map" (stringify sourceMap) [] _ "a.js"
           (or_introl eq_refl) eq_refl eq_refl).
Defined.





(** C1, as stated, fails: the text [./.js] ends in [.js] but has no
    extension, so nothing is stripped before [.mjs] is appended. *)
Lemma updateModuleSpecifier_dot_js_kept :
  updateModuleSpecifier mjsOptions noDirectory resolve dirname false
    "src/a.d.ts" (StringLiteral "./.js")
  = StringLiteral "./.js.mjs"
  /\ Spec.updateSpecifier ".mjs"
       (isDirectory noDirectory resolve dirname "src/a.d.ts") false "./.js"
     = "./.mjs"
  /\ updateModuleSpecifier mjsOptions noDirectory resolve dirname false
       "src/a.d.ts" (StringLiteral "./.js")
     <> StringLiteral
          (Spec.updateSpecifier ".mjs"
             (isDirectory noDirectory resolve dirname "src/a.d.ts") false
             "./.js").
Proof.
  split; [reflexivity|]. split; [reflexivity|]. vm_compute. discriminate.
Qed.


(** C4: the type-position branch has no [.cjs] exemption.  On the literal
    [./foo.cjs] it appends the script extension, where
    [updateModuleSpecifier] returns the text unchanged. *)
Lemma type_position_cjs_not_exempt :
  fst (visitor mjsOptions syntaxKinds noDirectory resolve dirname false
         "src/a.d.ts" (StringLiteral "./foo.cjs") typePositionWindow)
  = StringLiteral "./foo.cjs.mjs"
  /\ updateModuleSpecifier mjsOptions noDirectory resolve dirname false
       "src/a.d.ts" (StringLiteral "./foo.cjs")
     = StringLiteral "./foo.cjs".
Proof. split; reflexivity. Qed.

Lemma updateModuleSpecifier_fixed_point_witness :
  isDirectory fooDirectory resolve dirname "src/a.ts" "./foo" = true
  /\ updateModuleSpecifier (Worker.transformerOptions esmJsTarget)
       fooDirectory resolve dirname false "src/a.ts" (StringLiteral "./foo")
     = StringLiteral "./foo/index.esm.js"
  /\ (exists out,
       updateModuleSpecifier (RewriteImport.mkOptions ".cjs" ".d.cts")
         fooDirectory resolve dirname false "src/a.ts" (StringLiteral "./bar")
       = StringLiteral out
       /\ (isDirectory fooDirectory resolve dirname "src/a.ts" out = false ->
           updateModuleSpecifier (RewriteImport.mkOptions ".cjs" ".d.cts")
             fooDirectory resolve dirname false "src/a.ts" (StringLiteral out)
           = StringLiteral out))
  /\ exists out,
       updateModuleSpecifier mjsOptions fooDirectory resolve dirname false
         "src/a.ts" (StringLiteral "./bar")
       = StringLiteral out
       /\ (out <> "./bar" ->
           isDirectory fooDirectory resolve dirname "src/a.ts" out = false ->
           updateModuleSpecifier mjsOptions fooDirectory resolve dirname false
             "src/a.ts" (StringLiteral out)
           = StringLiteral (out ++ ".mjs")).
Proof.
  split; [reflexivity|]. split; [|split].
  - exact (proj1 (updateModuleSpecifier_fixed_point
                    (Worker.transformerOptions esmJsTarget) fooDirectory
                    resolve dirname false "src/a.ts") eq_refl).
  - exact (proj1 (proj2 (updateModuleSpecifier_fixed_point
                           (RewriteImport.mkOptions ".cjs" ".d.cts")
                           fooDirectory resolve dirname false "src/a.ts"))
             (or_intror eq_refl) "./bar" eq_refl eq_refl).
  - exact (proj2 (proj2 (updateModuleSpecifier_fixed_point mjsOptions
                           fooDirectory resolve dirname false "src/a.ts"))
             eq_refl "./bar" eq_refl eq_refl).
Defined.

(** C8, as stated, fails: with script extension [.mjs] the directory
    [./foo] is rewritten to [./foo/index.mjs], and rewriting that again
    yields [./foo/index.mjs.mjs]. *)
Lemma updateModuleSpecifier_mjs_not_fixed :
  isDirectory fooDirectory resolve dirname "src/a.ts" "./foo" = true
  /\ updateModuleSpecifier mjsOptions fooDirectory resolve dirname false
       "src/a.ts" (StringLiteral "./foo")
     = StringLiteral "./foo/index.mjs"
  /\ updateModuleSpecifier mjsOptions fooDirectory resolve dirname false
       "src/a.ts" (StringLiteral "./foo/index.mjs")
     = StringLiteral "./foo/index.mjs.mjs"
  /\ updateModuleSpecifier mjsOptions fooDirectory resolve dirname false
       "src/a.ts"
       (updateModuleSpecifier mjsOptions fooDirectory resolve dirname false
          "src/a.ts" (StringLiteral "./foo"))
     <> updateModuleSpecifier mjsOptions fooDirectory resolve dirname false
          "src/a.ts" (StringLiteral "./foo").
Proof.
  repeat split; try reflexivity. vm_compute. discriminate.
Qed.

(** The transpile-only run of the example: exit code 0, the script and
    its patched map written under the [.mjs] names, the error reported. *)
Example run_transpileOnly_example :
  Worker.run transpileTarget parse stringify MemFS memSystem
    (list string) compiler join failingBuilder failingBuilder world0
  = JS.Ok (0%Z,
           Worker.mkWorld
             [("out/a.mjs.map",
               stringify
                 (Worker.JObject
                    [("version", Worker.JNumber "3");
                     ("file", Worker.JString "a.mjs");
                     ("mappings", Worker.JString "AAAA")]));
              ("out/a.mjs", "export {};");
              ("src/a.ts", "let x = ;")]
             [errorDiagnostic]).
Proof. reflexivity. Qed.

Example rewriteSourceMappingURL_example :
  Worker.rewriteSourceMappingURL mjsTarget
    "export {};
//# sourceMappingURL=a.js.map"
  = "export {};
//# sourceMappingURL=a.mjs.map".
Proof. reflexivity. Qed.

Example updateModuleSpecifier_examples :
  let update :=
    updateModuleSpecifier mjsOptions noDirectory resolve dirname true
      "src/a.ts" in
  update (StringLiteral "./foo.js") = StringLiteral "./foo.mjs"
  /\ update (StringLiteral "./foo.cjs") = StringLiteral "./foo.cjs"
  /\ update (StringLiteral "./data.json") = StringLiteral "./data.json"
  /\ update (StringLiteral "typescript") = StringLiteral "typescript".
Proof. repeat split; reflexivity. Qed.

End ConcreteRuns.

(** * Further properties of the path policy *)

Section PathPolicyMore.

Variable data : Worker.WorkerOptions.

Local Abbreviation rewritePath := (Worker.rewritePath data).

Lemma append_cancel_r (a b e : string) : a ++ e = b ++ e -> a = b.
Proof.
  revert b; induction a as [|c a IH]; intros b H.
  - destruct b as [|d b]; [reflexivity|].
    apply (f_equal String.length) in H. simpl in H.
    rewrite length_app in H. lia.
  - destruct b as [|d b].
    + apply (f_equal String.length) in H. simpl in H.
      rewrite length_app in H. lia.
    + simpl in H. injection H as -> H. f_equal. now apply IH.
Qed.

Ltac norm_ext :=
  unfold Worker.JS_MAP_EXT, Worker.DTS_MAP_EXT, Worker.JS_EXT, Worker.DTS_EXT,
    Worker.MAP_EXT in *;
  cbn [append] in *.

Lemma js_not_js_map (path : string) :
  JS.endsWith path Worker.JS_EXT = true ->
  JS.endsWith path Worker.JS_MAP_EXT = false.
Proof. intros H. apply (endsWith_exclusive path Worker.JS_EXT); auto. Qed.

Lemma rewritePath_js_map (path : string) (ignoreDts : bool) :
  JS.endsWith path Worker.JS_MAP_EXT = true ->
  rewritePath path ignoreDts = Worker.getJSMapPath data path.
Proof.
  intros H. destruct (js_map_not_js path H) as [H1 _].
  unfold Worker.rewritePath. now rewrite H1, H.
Qed.

Lemma rewritePath_dts (path : string) :
  JS.endsWith path Worker.DTS_EXT = true ->
  rewritePath path false = Worker.getDtsPath data path.
Proof.
  intros H. destruct (dts_not_js path H) as [H1 H2].
  unfold Worker.rewritePath. now rewrite H1, H2, H.
Qed.

Lemma rewritePath_dts_map (path : string) :
  JS.endsWith path Worker.DTS_MAP_EXT = true ->
  rewritePath path false = Worker.getDtsMapPath data path.
Proof.
  intros H. destruct (dts_map_not_js path H) as (H1 & H2 & H3).
  unfold Worker.rewritePath. now rewrite H1, H2, H3, H.
Qed.

Lemma rewritePath_script_path (b e : string) (ignoreDts : bool) :
  Worker.extname data = Some e -> e <> "" ->
  rewritePath (b ++ ".js") ignoreDts = b ++ e.
Proof.
  intros He Hne.
  rewrite rewritePath_js by apply (endsWith_app b Worker.JS_EXT).
  unfold Worker.getJSPath. rewrite He.
  apply String.eqb_neq in Hne. rewrite Hne.
  norm_ext. now rewrite trimSuffix_app.
Qed.

Lemma rewritePath_script_map_path (b e : string) (ignoreDts : bool) :
  Worker.extname data = Some e -> e <> "" ->
  rewritePath (b ++ ".js.map") ignoreDts = b ++ e ++ ".map".
Proof.
  intros He Hne.
  rewrite rewritePath_js_map by apply (endsWith_app b Worker.JS_MAP_EXT).
  unfold Worker.getJSMapPath. rewrite He.
  apply String.eqb_neq in Hne. rewrite Hne.
  norm_ext. now rewrite trimSuffix_app.
Qed.

(** X1: with a script extension [e] configured, a path [b.js] becomes
    [b e] and [b.js.map] becomes [b e .map], whatever [ignoreDts] is; with a
    declaration extension [d] configured and [ignoreDts] false, [b.d.ts]
    becomes [b d] and [b.d.ts.map] becomes [b d .map]. *)
Theorem rewritePath_replaces_suffix (b : string) :
  (forall e ignoreDts,
      Worker.extname data = Some e -> e <> "" ->
      rewritePath (b ++ ".js") ignoreDts = b ++ e
      /\ rewritePath (b ++ ".js.map") ignoreDts = b ++ e ++ ".map")
  /\ (forall d,
        Worker.dtsExtName data = Some d -> d <> "" ->
        rewritePath (b ++ ".d.ts") false = b ++ d
        /\ rewritePath (b ++ ".d.ts.map") false = b ++ d ++ ".map").
Proof.
  split.
  - intros e ignoreDts He Hne. split.
    + now apply rewritePath_script_path.
    + now apply rewritePath_script_map_path.
  - intros d Hd Hne. apply String.eqb_neq in Hne. split.
    + rewrite rewritePath_dts by apply (endsWith_app b Worker.DTS_EXT).
      unfold Worker.getDtsPath. rewrite Hd, Hne.
      norm_ext. now rewrite trimSuffix_app.
    + rewrite rewritePath_dts_map
        by apply (endsWith_app b Worker.DTS_MAP_EXT).
      unfold Worker.getDtsMapPath. rewrite Hd, Hne.
      norm_ext. now rewrite trimSuffix_app.
Qed.

(** X2: under every configuration the map of a script or of a declaration
    is renamed in lockstep with it: the rewritten [b.js.map] is the
    rewritten [b.js] followed by [.map], and likewise for [b.d.ts.map]. *)
Theorem rewritePath_map_lockstep (b : string) :
  rewritePath (b ++ ".js.map") false = rewritePath (b ++ ".js") false ++ ".map"
  /\ rewritePath (b ++ ".d.ts.map") false
     = rewritePath (b ++ ".d.ts") false ++ ".map".
Proof.
  split.
  - rewrite rewritePath_js_map by apply (endsWith_app b Worker.JS_MAP_EXT).
    rewrite rewritePath_js by apply (endsWith_app b Worker.JS_EXT).
    unfold Worker.getJSMapPath, Worker.getJSPath.
    destruct (Worker.extname data) as [e|].
    + destruct (e =? "").
      * now rewrite append_assoc.
      * norm_ext. rewrite !trimSuffix_app. now rewrite append_assoc.
    + now rewrite append_assoc.
  - rewrite rewritePath_dts_map by apply (endsWith_app b Worker.DTS_MAP_EXT).
    rewrite rewritePath_dts by apply (endsWith_app b Worker.DTS_EXT).
    unfold Worker.getDtsMapPath, Worker.getDtsPath.
    destruct (Worker.dtsExtName data) as [d|].
    + destruct (d =? "").
      * now rewrite append_assoc.
      * norm_ext. rewrite !trimSuffix_app. now rewrite append_assoc.
    + now rewrite append_assoc.
Qed.

(** X3: two different script paths are never renamed to the same path. *)
Theorem rewritePath_script_injective (p q : string) (i j : bool) :
  JS.endsWith p Worker.JS_EXT = true ->
  JS.endsWith q Worker.JS_EXT = true ->
  rewritePath p i = rewritePath q j ->
  p = q.
Proof.
  intros Hp Hq.
  rewrite (rewritePath_js data p i Hp), (rewritePath_js data q j Hq).
  unfold Worker.getJSPath.
  destruct (Worker.extname data) as [e|]; [|auto].
  destruct (e =? ""); [auto|].
  intros H. apply append_cancel_r in H.
  rewrite <- (trimSuffix_endsWith p Worker.JS_EXT Hp).
  rewrite <- (trimSuffix_endsWith q Worker.JS_EXT Hq).
  now rewrite H.
Qed.

(** X4: rewriting is per kind.  Without a script extension (undefined or
    empty) every path ending in [.js] or [.js.map] is returned unchanged,
    whatever the declaration extension; without a declaration extension
    every path ending in [.d.ts] or [.d.ts.map] is returned unchanged,
    whatever the script extension. *)
Theorem rewritePath_per_kind (path : string) (ignoreDts : bool) :
  (JS.or_default (Worker.extname data) "" = "" ->
   JS.endsWith path Worker.JS_EXT = true
   \/ JS.endsWith path Worker.JS_MAP_EXT = true ->
   rewritePath path ignoreDts = path)
  /\ (JS.or_default (Worker.dtsExtName data) "" = "" ->
      JS.endsWith path Worker.DTS_EXT = true
      \/ JS.endsWith path Worker.DTS_MAP_EXT = true ->
      rewritePath path ignoreDts = path).
Proof.
  split.
  - intros Hun [H | H].
    + rewrite (rewritePath_js data path ignoreDts H). unfold Worker.getJSPath.
      destruct (Worker.extname data) as [e|]; [|reflexivity].
      simpl in Hun. destruct (String.eqb_spec e ""); [reflexivity|congruence].
    + rewrite (rewritePath_js_map path ignoreDts H).
      unfold Worker.getJSMapPath.
      destruct (Worker.extname data) as [e|]; [|reflexivity].
      simpl in Hun. destruct (String.eqb_spec e ""); [reflexivity|congruence].
  - intros Hun H. destruct ignoreDts.
    + unfold Worker.rewritePath.
      destruct H as [H | H].
      * destruct (dts_not_js path H) as [-> ->]. reflexivity.
      * destruct (dts_map_not_js path H) as (-> & -> & _). reflexivity.
    + destruct H as [H | H].
      * rewrite (rewritePath_dts path H). unfold Worker.getDtsPath.
        destruct (Worker.dtsExtName data) as [d|]; [|reflexivity].
        simpl in Hun.
        destruct (String.eqb_spec d ""); [reflexivity|congruence].
      * rewrite (rewritePath_dts_map path H). unfold Worker.getDtsMapPath.
        destruct (Worker.dtsExtName data) as [d|]; [|reflexivity].
        simpl in Hun.
        destruct (String.eqb_spec d ""); [reflexivity|congruence].
Qed.

End PathPolicyMore.

Lemma rewritePath_script_injective_witness :
  JS.endsWith "out/a.js" Worker.JS_EXT = true
  /\ JS.endsWith "out/a.js" Worker.JS_EXT = true
  /\ Worker.rewritePath Examples.mjsTarget "out/a.js" true
     = Worker.rewritePath Examples.mjsTarget "out/a.js" false
  /\ "out/a.js" = "out/a.js".
Proof.
  split; [reflexivity|]. split; [reflexivity|]. split; [reflexivity|].
  exact (rewritePath_script_injective Examples.mjsTarget "out/a.js" "out/a.js"
           true false eq_refl eq_refl eq_refl).
Defined.

(** * Further properties of the file-system adapter *)

Section AdapterMore.

Variable data : Worker.WorkerOptions.
Variable FS : Type.
Variable sys : Worker.System FS.
Variable JSON_parse : string -> option Worker.json.
Variable JSON_stringify : Worker.json -> string.

Local Abbreviation writeFile :=
  (Worker.writeFile data JSON_parse JSON_stringify FS sys).
Local Abbreviation fileExists := (Worker.fileExists data FS sys).
Local Abbreviation readFile := (Worker.readFile data FS sys).

Lemma rewritePath_read_not_script (path : string) :
  JS.endsWith path Worker.JS_EXT = false ->
  JS.endsWith path Worker.JS_MAP_EXT = false ->
  Worker.rewritePath data path true = path.
Proof. intros H1 H2. unfold Worker.rewritePath. now rewrite H1, H2. Qed.

Lemma read_not_script (fs : FS) (path : string) :
  JS.endsWith path Worker.JS_EXT = false ->
  JS.endsWith path Worker.JS_MAP_EXT = false ->
  fileExists fs path = Worker.sys_fileExists sys fs path
  /\ readFile fs path = Worker.sys_readFile sys fs path.
Proof.
  intros H1 H2.
  unfold Worker.fileExists, Worker.readFile, Worker.getReadPaths.
  rewrite (rewritePath_read_not_script path H1 H2), H1. split; reflexivity.
Qed.

(** X5: for a path that ends neither in [.js] nor in [.js.map] (sources,
    declarations, JSON files), [fileExists] and [readFile] of the adapter
    are those of the host at the same path, under every configuration. *)
Theorem read_passthrough (fs : FS) (path : string) :
  JS.endsWith path Worker.JS_EXT = false ->
  JS.endsWith path Worker.JS_MAP_EXT = false ->
  fileExists fs path = Worker.sys_fileExists sys fs path
  /\ readFile fs path = Worker.sys_readFile sys fs path.
Proof. apply read_not_script. Qed.

Lemma writeFile_script (path content : string) (fs : FS) :
  JS.endsWith path Worker.JS_EXT = true ->
  writeFile path content fs
  = JS.Ok (Worker.sys_writeFile sys (Worker.getJSPath data path)
             (Worker.rewriteSourceMappingURL data content) fs).
Proof.
  intros H. unfold Worker.writeFile.
  rewrite (rewritePath_js data path false H), H. reflexivity.
Qed.

Lemma writeFile_dts (path content : string) (fs : FS) :
  JS.endsWith path Worker.DTS_EXT = true ->
  writeFile path content fs
  = JS.Ok (Worker.sys_writeFile sys (Worker.getDtsPath data path)
             (Worker.rewriteSourceMappingURL data content) fs).
Proof.
  intros H. unfold Worker.writeFile.
  rewrite (rewritePath_dts data path H), H, orb_true_r. reflexivity.
Qed.

(** X6: on a host where a written file exists and reads back, a script
    written through the adapter is found and read back through the adapter
    under the path it was written with, its content being the patched
    one. *)
Theorem script_read_after_write (path content : string) (fs fs' : FS) :
  (forall p d f, Worker.sys_fileExists sys (Worker.sys_writeFile sys p d f) p
                 = true) ->
  (forall p d f, Worker.sys_readFile sys (Worker.sys_writeFile sys p d f) p
                 = Some d) ->
  JS.endsWith path Worker.JS_EXT = true ->
  writeFile path content fs = JS.Ok fs' ->
  fileExists fs' path = true
  /\ readFile fs' path = Some (Worker.rewriteSourceMappingURL data content).
Proof.
  intros Hex Hrd Hjs Hw.
  rewrite (writeFile_script path content fs Hjs) in Hw. injection Hw as <-.
  unfold Worker.fileExists, Worker.readFile, Worker.getReadPaths.
  rewrite (rewritePath_js data path true Hjs), Hjs.
  cbn [fold_left List.app Worker.firstRead]. rewrite Hex, Hrd.
  split; reflexivity.
Qed.

(** X7: a declaration written while a declaration extension other than
    [.d.ts] is configured lands under the renamed path only: on a host
    where writing one path leaves the existence of every other path as it
    was, the adapter still does not find it under the path it was written
    with. *)
Theorem declaration_not_found_after_write (b d content : string)
    (fs fs' : FS) :
  (forall p q c f, p <> q ->
     Worker.sys_fileExists sys (Worker.sys_writeFile sys p c f) q
     = Worker.sys_fileExists sys f q) ->
  Worker.dtsExtName data = Some d -> d <> "" -> d <> ".d.ts" ->
  Worker.sys_fileExists sys fs (b ++ ".d.ts") = false ->
  writeFile (b ++ ".d.ts") content fs = JS.Ok fs' ->
  fileExists fs' (b ++ ".d.ts") = false.
Proof.
  intros Hframe Hd Hne Hdts Hnot Hw.
  pose proof (endsWith_app b ".d.ts") as Hends.
  destruct (dts_not_js _ Hends) as [H1 H2].
  rewrite (writeFile_dts _ content fs Hends) in Hw. injection Hw as <-.
  destruct (read_not_script
              (Worker.sys_writeFile sys
                 (Worker.getDtsPath data (b ++ ".d.ts"))
                 (Worker.rewriteSourceMappingURL data content) fs)
              (b ++ ".d.ts") H1 H2) as [Hpass _].
  rewrite Hpass. rewrite Hframe; [exact Hnot|].
  unfold Worker.getDtsPath. rewrite Hd.
  apply String.eqb_neq in Hne. rewrite Hne.
  change Worker.DTS_EXT with ".d.ts".
  rewrite (trimSuffix_app b ".d.ts"). intros Heq.
  apply Hdts. clear - Heq.
  induction b as [|c b IH]; simpl in Heq; [exact Heq|].
  injection Heq as Heq. now apply IH.
Qed.

(** X8: writing a path that ends in [.js.map] or [.d.ts.map] throws, and
    hands nothing to the host, when the content is not JSON (a
    [SyntaxError]) and when it is JSON but not an object with a string
    [file] (a [TypeError]). *)
Theorem writeFile_map_throws (path content : string) (fs : FS) :
  JS.endsWith path Worker.JS_MAP_EXT = true
  \/ JS.endsWith path Worker.DTS_MAP_EXT = true ->
  (JSON_parse content = None ->
   writeFile path content fs = JS.Throw JS.SyntaxError)
  /\ (forall j,
        JSON_parse content = Some j ->
        (forall fields file,
            j = Worker.JObject fields ->
            Worker.getField "file" fields <> Some (Worker.JString file)) ->
        writeFile path content fs = JS.Throw JS.TypeError).
Proof.
  intros Hmap.
  assert (Hno : JS.endsWith path Worker.JS_EXT
                || JS.endsWith path Worker.DTS_EXT = false).
  { destruct Hmap as [H | H].
    - destruct (js_map_not_js path H) as [-> ->]. reflexivity.
    - destruct (dts_map_not_js path H) as (-> & _ & ->). reflexivity. }
  assert (Hyes : JS.endsWith path Worker.JS_MAP_EXT
                 || JS.endsWith path Worker.DTS_MAP_EXT = true).
  { destruct Hmap as [-> | ->]; [reflexivity | apply orb_true_r]. }
  split.
  - intros Hp. unfold Worker.writeFile. rewrite Hno, Hyes.
    unfold Worker.rewriteSourceMap. now rewrite Hp.
  - intros j Hp Hbad. unfold Worker.writeFile. rewrite Hno, Hyes.
    unfold Worker.rewriteSourceMap. rewrite Hp.
    destruct j as [| | | | |fields]; try reflexivity.
    destruct (Worker.getField "file" fields) as [[| | |file| |]|] eqn:Hf;
      try reflexivity.
    exfalso. exact (Hbad fields file eq_refl Hf).
Qed.

End AdapterMore.

Lemma memSystem_exists_after_write (p d : string) (f : Examples.MemFS) :
  Worker.sys_fileExists Examples.memSystem
    (Worker.sys_writeFile Examples.memSystem p d f) p = true.
Proof. simpl. now rewrite String.eqb_refl. Qed.

Lemma memSystem_read_after_write (p d : string) (f : Examples.MemFS) :
  Worker.sys_readFile Examples.memSystem
    (Worker.sys_writeFile Examples.memSystem p d f) p = Some d.
Proof. simpl. now rewrite String.eqb_refl. Qed.

Lemma memSystem_write_frame (p q c : string) (f : Examples.MemFS) :
  p <> q ->
  Worker.sys_fileExists Examples.memSystem
    (Worker.sys_writeFile Examples.memSystem p c f) q
  = Worker.sys_fileExists Examples.memSystem f q.
Proof. intros H. simpl. apply String.eqb_neq in H. now rewrite H. Qed.

Lemma read_passthrough_witness :
  JS.endsWith "lib/lib.dom.d.ts" Worker.JS_EXT = false
  /\ JS.endsWith "lib/lib.dom.d.ts" Worker.JS_MAP_EXT = false
  /\ Worker.readFile Examples.mjsTarget Examples.MemFS Examples.memSystem
       [("lib/lib.dom.d.ts", "declare var x: number;")] "lib/lib.dom.d.ts"
     = Some "declare var x: number;".
Proof.
  split; [reflexivity|]. split; [reflexivity|].
  rewrite (proj2 (read_passthrough Examples.mjsTarget Examples.MemFS
                    Examples.memSystem
                    [("lib/lib.dom.d.ts", "declare var x: number;")]
                    "lib/lib.dom.d.ts" eq_refl eq_refl)).
  reflexivity.
Defined.

Lemma script_read_after_write_witness :
  JS.endsWith "out/a.js" Worker.JS_EXT = true
  /\ Worker.fileExists Examples.mjsTarget Examples.MemFS Examples.memSystem
       [("out/a.mjs", "export {};")] "out/a.js" = true.
Proof.
  split; [reflexivity|].
  exact (proj1 (script_read_after_write Examples.mjsTarget Examples.MemFS
                  Examples.memSystem Examples.parse Examples.stringify
                  "out/a.js" "export {};" [] _
                  memSystem_exists_after_write memSystem_read_after_write
                  eq_refl eq_refl)).
Defined.

Lemma declaration_not_found_after_write_witness :
  Worker.dtsExtName Examples.mjsTarget = Some ".d.mts"
  /\ Worker.fileExists Examples.mjsTarget Examples.MemFS Examples.memSystem
       [("out/a.d.mts", "export {};")] "out/a.d.ts" = false.
Proof.
  split; [reflexivity|].
  refine (declaration_not_found_after_write Examples.mjsTarget Examples.MemFS
            Examples.memSystem Examples.parse Examples.stringify
            "out/a" ".d.mts" "export {};" [] _
            memSystem_write_frame eq_refl _ _ eq_refl eq_refl);
    discriminate.
Defined.

Lemma writeFile_map_throws_witness :
  (JS.endsWith "out/a.js.map" Worker.JS_MAP_EXT = true
   \/ JS.endsWith "out/a.js.map" Worker.DTS_MAP_EXT = true)
  /\ Worker.writeFile Examples.mjsTarget Examples.parse Examples.stringify
       Examples.MemFS Examples.memSystem "out/a.js.map" "not json" []
     = JS.Throw JS.SyntaxError.
Proof.
  split; [left; reflexivity|].
  exact (proj1 (writeFile_map_throws Examples.mjsTarget Examples.MemFS
                  Examples.memSystem Examples.parse Examples.stringify
                  "out/a.js.map" "not json" [] (or_introl eq_refl))
           eq_refl).
Defined.

(** * The source-mapping comment ([Worker.rewriteSourceMappingURL]) *)

Section SourceMappingURL.

Variable data : Worker.WorkerOptions.

Local Abbreviation replace := (Worker.replaceSourceMappingURL data).
Local Abbreviation marker := Worker.SOURCE_MAPPING_URL.

Lemma prefix_refl_app (p s : string) : String.prefix p (p ++ s) = true.
Proof.
  induction p as [|c p IH]; simpl; [now destruct s|].
  destruct (ascii_dec c c); [exact IH | congruence].
Qed.

(** Whether a text starts with a line terminator is not changed by
    appending a text that cannot continue a line separator. *)
Lemma lineTerminatorAt_app (c : ascii) (u t : string) :
  Props.noContinuation t = true ->
  Worker.lineTerminatorAt (String c u ++ t)
  = Worker.lineTerminatorAt (String c u).
Proof.
  intros Ht. destruct u as [|c2 [|c3 u]]; [| |reflexivity];
    cbn [append Worker.lineTerminatorAt]; f_equal; f_equal.
  - destruct t as [|d [|d2 t]]; [reflexivity|reflexivity|].
    cbn [Props.noContinuation] in Ht. apply negb_true_iff in Ht.
    apply orb_false_elim in Ht as [Ht _].
    apply orb_false_elim in Ht as [-> _]. reflexivity.
  - destruct t as [|d t]; [reflexivity|].
    cbn [Props.noContinuation] in Ht. apply negb_true_iff in Ht.
    apply orb_false_elim in Ht as [Ht ->].
    apply orb_false_elim in Ht as [_ ->]. now rewrite andb_false_r.
Qed.

Lemma lineEnd_noContinuation (t : string) :
  Props.lineEnd t = true -> Props.noContinuation t = true.
Proof.
  destruct t as [|c t]; [reflexivity|].
  cbn [Props.lineEnd Props.noContinuation Worker.lineTerminatorAt].
  unfold Worker.isLineTerminator. intros H.
  destruct (Ascii.eqb_spec c "128") as [->|]; [discriminate|].
  destruct (Ascii.eqb_spec c "168") as [->|]; [discriminate|].
  destruct (Ascii.eqb_spec c "169") as [->|]; [discriminate|].
  reflexivity.
Qed.

Lemma singleLine_app (a b : string) :
  Props.singleLine a = true -> Props.noContinuation b = true ->
  Props.singleLine b = true -> Props.singleLine (a ++ b) = true.
Proof.
  intros Ha Hn Hb. induction a as [|c a IH]; [exact Hb|].
  cbn [Props.singleLine] in Ha. apply andb_prop in Ha as [Hc Ha].
  change (String c a ++ b) with (String c (a ++ b)).
  cbn [Props.singleLine].
  change (String c (a ++ b)) with (String c a ++ b).
  rewrite (lineTerminatorAt_app c a b Hn), Hc. now apply IH.
Qed.

Lemma takeLine_app (url tail : string) :
  Props.singleLine url = true -> Props.lineEnd tail = true ->
  Worker.takeLine (url ++ tail) = url.
Proof.
  intros Hu Ht. pose proof (lineEnd_noContinuation tail Ht) as Hn.
  induction url as [|c url IH].
  - destruct tail as [|c t]; [reflexivity|].
    cbn [append Worker.takeLine]. cbn [Props.lineEnd] in Ht. now rewrite Ht.
  - cbn [Props.singleLine] in Hu. apply andb_prop in Hu as [Hc Hu].
    apply negb_true_iff in Hc.
    change (String c url ++ tail) with (String c (url ++ tail)).
    cbn [Worker.takeLine].
    change (String c (url ++ tail)) with (String c url ++ tail).
    rewrite (lineTerminatorAt_app c url tail Hn), Hc.
    now rewrite IH.
Qed.

(** Characters covered by the previous match are dropped. *)
Lemma replace_skip (x r : string) :
  replace (x ++ r) (String.length x) = replace r 0.
Proof. induction x as [|c x IH]; simpl; [reflexivity | exact IH]. Qed.

(** Text before the first occurrence of the marker is copied. *)
Lemma replace_markerFree (body rest : string) :
  Props.markerFree body rest = true ->
  replace (body ++ rest) 0 = body ++ replace rest 0.
Proof.
  induction body as [|c body IH]; intros H; [reflexivity|].
  cbn [Props.markerFree] in H. apply andb_prop in H as [Hp Hb].
  apply negb_true_iff in Hp.
  change (String c body ++ rest) with (String c (body ++ rest)) in *.
  cbn [Worker.replaceSourceMappingURL]. rewrite Hp.
  cbn [append]. f_equal. now apply IH.
Qed.

(** A marker followed by a non-empty rest of line is replaced. *)
Lemma replace_marker (url tail : string) :
  url <> "" -> Props.singleLine url = true -> Props.lineEnd tail = true ->
  replace (marker ++ url ++ tail) 0
  = marker ++ Worker.rewritePath data url false ++ replace tail 0.
Proof.
  intros Hne Hu Ht.
  assert (Hsub :
    substring (String.length marker)
      (String.length (marker ++ url ++ tail) - String.length marker)
      (marker ++ url ++ tail) = url ++ tail).
  { rewrite <- (Nat.add_0_r (String.length marker)) at 1.
    rewrite substring_skip_app, length_app.
    replace (String.length marker + String.length (url ++ tail)
             - String.length marker)
      with (String.length (url ++ tail)) by lia.
    apply substring_0_length. }
  assert (Hpre : String.prefix marker (marker ++ url ++ tail) = true)
    by apply prefix_refl_app.
  remember (marker ++ url ++ tail) as s eqn:Hs.
  assert (Hshape : exists c rest, s = String c rest
                     /\ rest = substring 1 (String.length marker - 1) marker
                               ++ url ++ tail).
  { subst s. eexists; eexists; split; reflexivity. }
  destruct Hshape as (c & rest & Hc & Hrest).
  rewrite Hc. cbn [Worker.replaceSourceMappingURL].
  rewrite <- Hc, Hpre, Hsub, (takeLine_app url tail Hu Ht).
  apply String.eqb_neq in Hne. rewrite Hne.
  do 2 f_equal. rewrite Hrest.
  rewrite <- append_assoc.
  replace (Nat.pred (String.length marker + String.length url))
    with (String.length
            (substring 1 (String.length marker - 1) marker ++ url)).
  - apply replace_skip.
  - rewrite length_app. simpl. reflexivity.
Qed.

Lemma rewriteSourceMappingURL_comment_parts (body url tail : string) :
  Props.markerFree body (marker ++ url ++ tail) = true ->
  url <> "" ->
  Props.singleLine url = true ->
  Props.lineEnd tail = true ->
  Worker.rewriteSourceMappingURL data (body ++ marker ++ url ++ tail)
  = body ++ marker ++ Worker.rewritePath data url false
    ++ Worker.rewriteSourceMappingURL data tail.
Proof.
  intros Hfree Hne Hu Ht. unfold Worker.rewriteSourceMappingURL.
  rewrite (replace_markerFree body _ Hfree).
  now rewrite (replace_marker url tail Hne Hu Ht).
Qed.

(** X9: in a text whose first occurrence of [//# sourceMappingURL=] is
    followed by a non-empty rest of line [url], that rest of line is
    replaced by the rewritten [url]; the text before the comment is kept,
    and the text after its line is processed in the same way. *)
Theorem rewriteSourceMappingURL_comment (body url tail : string) :
  Props.markerFree body (marker ++ url ++ tail) = true ->
  url <> "" ->
  Props.singleLine url = true ->
  Props.lineEnd tail = true ->
  Worker.rewriteSourceMappingURL data (body ++ marker ++ url ++ tail)
  = body ++ marker ++ Worker.rewritePath data url false
    ++ Worker.rewriteSourceMappingURL data tail.
Proof. apply rewriteSourceMappingURL_comment_parts. Qed.

(** X10: a text in which [//# sourceMappingURL=] does not occur is
    returned unchanged. *)
Theorem rewriteSourceMappingURL_no_comment (text : string) :
  Props.markerFree text "" = true ->
  Worker.rewriteSourceMappingURL data text = text.
Proof.
  intros H. unfold Worker.rewriteSourceMappingURL.
  rewrite <- (append_nil_r text) at 1.
  rewrite (replace_markerFree text "" H). simpl. apply append_nil_r.
Qed.

End SourceMappingURL.

Lemma rewriteSourceMappingURL_comment_witness :
  Props.markerFree "export {};" (Worker.SOURCE_MAPPING_URL ++ "a.js.map" ++ "")
  = true
  /\ Worker.rewriteSourceMappingURL Examples.mjsTarget
       ("export {};" ++ Worker.SOURCE_MAPPING_URL ++ "a.js.map" ++ "")
     = "export {};" ++ Worker.SOURCE_MAPPING_URL ++ "a.mjs.map".
Proof.
  split; [reflexivity|].
  rewrite (rewriteSourceMappingURL_comment Examples.mjsTarget
             "export {};" "a.js.map" "" eq_refl);
    [reflexivity | discriminate | reflexivity | reflexivity].
Defined.

Lemma rewriteSourceMappingURL_no_comment_witness :
  Props.markerFree "export const a = 1; // done" "" = true
  /\ Worker.rewriteSourceMappingURL Examples.mjsTarget
       "export const a = 1; // done"
     = "export const a = 1; // done".
Proof.
  split; [reflexivity|].
  exact (rewriteSourceMappingURL_no_comment Examples.mjsTarget
           "export const a = 1; // done" eq_refl).
Defined.

(** * Writing a script with its source-mapping comment *)

Section WriteScript.

Variable data : Worker.WorkerOptions.
Variable FS : Type.
Variable sys : Worker.System FS.
Variable JSON_parse : string -> option Worker.json.
Variable JSON_stringify : Worker.json -> string.

(** X11: with a script extension [e] configured, writing [b.js] whose
    content ends in the comment [//# sourceMappingURL=name.js.map] hands
    the host the path [b e] and the same content with the comment
    pointing to [name e .map], the name under which the map itself is
    written. *)
Theorem writeFile_script_comment (b e body name : string) (fs : FS) :
  Worker.extname data = Some e -> e <> "" ->
  Props.markerFree body (Worker.SOURCE_MAPPING_URL ++ name ++ ".js.map")
  = true ->
  Props.singleLine name = true ->
  Worker.writeFile data JSON_parse JSON_stringify FS sys (b ++ ".js")
    (body ++ Worker.SOURCE_MAPPING_URL ++ name ++ ".js.map") fs
  = JS.Ok (Worker.sys_writeFile sys (b ++ e)
             (body ++ Worker.SOURCE_MAPPING_URL ++ name ++ e ++ ".map") fs).
Proof.
  intros He Hne Hfree Hname.
  assert (Hline : Props.singleLine (name ++ ".js.map") = true)
    by (apply singleLine_app; [exact Hname | reflexivity | reflexivity]).
  assert (Hshape : Worker.SOURCE_MAPPING_URL ++ name ++ ".js.map"
                   = Worker.SOURCE_MAPPING_URL ++ (name ++ ".js.map") ++ "")
    by now rewrite append_nil_r.
  rewrite Hshape in Hfree. rewrite Hshape.
  rewrite (writeFile_script data FS sys JSON_parse JSON_stringify
             (b ++ ".js") _ fs (endsWith_app b ".js")).
  rewrite <- (rewritePath_js data (b ++ ".js") false (endsWith_app b ".js")).
  rewrite (rewritePath_script_path data b e false He Hne).
  rewrite (rewriteSourceMappingURL_comment_parts data body
             (name ++ ".js.map") "" Hfree); auto.
  - rewrite (rewritePath_script_map_path data name e false He Hne).
    unfold Worker.rewriteSourceMappingURL. simpl.
    now rewrite !append_assoc, append_nil_r.
  - now destruct name.
Qed.

End WriteScript.

Lemma writeFile_script_comment_witness :
  Worker.extname Examples.mjsTarget = Some ".mjs"
  /\ Worker.writeFile Examples.mjsTarget Examples.parse Examples.stringify
       Examples.MemFS Examples.memSystem ("out/a" ++ ".js")
       ("export {};" ++ Worker.SOURCE_MAPPING_URL ++ "a" ++ ".js.map") []
     = JS.Ok [("out/a.mjs",
               "export {};" ++ Worker.SOURCE_MAPPING_URL ++ "a.mjs.map")].
Proof.
  split; [reflexivity|].
  rewrite (writeFile_script_comment Examples.mjsTarget Examples.MemFS
             Examples.memSystem Examples.parse Examples.stringify
             "out/a" ".mjs" "export {};" "a" [] eq_refl
             ltac:(discriminate) eq_refl eq_refl).
  reflexivity.
Defined.

(** * The incremental-metadata path ([Worker.patchedTsBuildInfoFile]) *)

Section TsBuildInfo.

Lemma append_cancel_l (a x y : string) : a ++ x = a ++ y -> x = y.
Proof.
  induction a as [|c a IH]; simpl; [auto|].
  intros H. injection H as H. now apply IH.
Qed.

(** X12: for one configuration file compiled incrementally without a
    [tsBuildInfoFile] of its own, two targets with different script
    extensions are given different metadata paths. *)
Theorem tsBuildInfoFile_distinct (d1 d2 : Worker.WorkerOptions)
    (path e1 e2 : string) (preset : option string) :
  Worker.extname d1 = Some e1 -> Worker.extname d2 = Some e2 ->
  e1 <> "" -> e2 <> "" -> e1 <> e2 ->
  JS.or_default preset "" = "" ->
  exists f1 f2,
    Worker.patchedTsBuildInfoFile d1 path preset true = Some f1
    /\ Worker.patchedTsBuildInfoFile d2 path preset true = Some f2
    /\ f1 <> f2.
Proof.
  intros H1 H2 Hn1 Hn2 Hne Hpre.
  unfold Worker.patchedTsBuildInfoFile. rewrite H1, H2.
  apply String.eqb_neq in Hn1, Hn2. rewrite Hn1, Hn2.
  assert (Hfalsy : preset = None \/ preset = Some "").
  { destruct preset as [f|]; [|now left]. right. simpl in Hpre.
    destruct (String.eqb_spec f ""); congruence. }
  destruct Hfalsy as [-> | ->]; cbn [String.eqb andb];
    (eexists; eexists; split; [reflexivity|]; split; [reflexivity|];
     intros Heq; apply append_cancel_l, append_cancel_r in Heq;
     contradiction).
Qed.

(** The metadata path is left as the configuration gave it when the
    configuration names one, when the compilation is not incremental, and
    when the target has no script extension. *)
Lemma tsBuildInfoFile_kept (data : Worker.WorkerOptions) (path : string)
    (preset : option string) (incremental : bool) :
  (forall f, preset = Some f -> f <> "" ->
     Worker.patchedTsBuildInfoFile data path preset incremental = preset)
  /\ Worker.patchedTsBuildInfoFile data path preset false = preset
  /\ (JS.or_default (Worker.extname data) "" = "" ->
      Worker.patchedTsBuildInfoFile data path preset incremental = preset).
Proof.
  unfold Worker.patchedTsBuildInfoFile. split; [|split].
  - intros f -> Hf. apply String.eqb_neq in Hf. rewrite Hf.
    destruct (Worker.extname data) as [e|]; [|reflexivity].
    now destruct (e =? "").
  - destruct (Worker.extname data) as [e|]; [|reflexivity].
    destruct (e =? ""); [reflexivity|].
    destruct preset as [f|]; [|reflexivity]. now rewrite andb_false_r.
  - intros Hun. destruct (Worker.extname data) as [e|]; [|reflexivity].
    simpl in Hun. destruct (String.eqb_spec e ""); [reflexivity|congruence].
Qed.

(** X13: for a configuration file [b.json] the metadata path given to a
    target with script extension [e] is [b e .tsbuildinfo]. *)
Theorem tsBuildInfoFile_name (data : Worker.WorkerOptions) (b e : string) :
  Worker.extname data = Some e -> e <> "" ->
  b <> "" -> JS.endsWith b "/" = false ->
  Worker.patchedTsBuildInfoFile data (b ++ ".json") None true
  = Some (b ++ e ++ ".tsbuildinfo").
Proof.
  intros He Hne Hb Hslash. unfold Worker.patchedTsBuildInfoFile.
  rewrite He. apply String.eqb_neq in Hne. rewrite Hne.
  rewrite (extname_app_json b Hb Hslash).
  now rewrite trimSuffix_app.
Qed.

End TsBuildInfo.

Lemma tsBuildInfoFile_distinct_witness :
  Worker.extname Examples.mjsTarget = Some ".mjs"
  /\ Worker.extname Examples.cjsTarget = Some ".cjs"
  /\ exists f1 f2,
       Worker.patchedTsBuildInfoFile Examples.mjsTarget "pkg/tsconfig.json"
         None true = Some f1
       /\ Worker.patchedTsBuildInfoFile Examples.cjsTarget "pkg/tsconfig.json"
            None true = Some f2
       /\ f1 <> f2.
Proof.
  split; [reflexivity|]. split; [reflexivity|].
  apply (tsBuildInfoFile_distinct Examples.mjsTarget Examples.cjsTarget
           "pkg/tsconfig.json" ".mjs" ".cjs" None eq_refl eq_refl);
    try discriminate; reflexivity.
Defined.

Lemma tsBuildInfoFile_name_witness :
  Worker.extname Examples.mjsTarget = Some ".mjs"
  /\ Worker.patchedTsBuildInfoFile Examples.mjsTarget
       ("pkg/tsconfig" ++ ".json") None true
     = Some "pkg/tsconfig.mjs.tsbuildinfo".
Proof.
  split; [reflexivity|].
  rewrite (tsBuildInfoFile_name Examples.mjsTarget "pkg/tsconfig" ".mjs"
             eq_refl ltac:(discriminate) ltac:(discriminate) eq_refl).
  reflexivity.
Defined.

(** * Further properties of the declaration specifier rewriter *)

Section VisitorMore.

Import RewriteDtsImport.

Variable options : RewriteImport.RewriteImportTransformerOptions.
Variable SyntaxKind : SyntaxKindTable.
Variable directoryExists : string -> bool.
Variable resolve : string -> string -> string.
Variable dirname : string -> string.
Variable resolveJsonModule : bool.
Variable sourceFileName : string.

Local Abbreviation update :=
  (updateModuleSpecifier options directoryExists resolve dirname
     resolveJsonModule sourceFileName).
Local Abbreviation updateTypePosition :=
  (updateTypePositionLiteral options directoryExists resolve dirname
     resolveJsonModule sourceFileName).
Local Abbreviation isDir :=
  (isDirectory directoryExists resolve dirname sourceFileName).
Local Abbreviation scriptExt := (RewriteImport.extname options).
Local Abbreviation visit :=
  (visitor options SyntaxKind directoryExists resolve dirname
     resolveJsonModule sourceFileName).
Local Abbreviation visitAll :=
  (visitNodes options SyntaxKind directoryExists resolve dirname
     resolveJsonModule sourceFileName).

(** X15: [updateModuleSpecifier] either returns the text of a string
    literal unchanged or returns a text that ends in the configured
    script extension. *)
Theorem updateModuleSpecifier_unchanged_or_extension (text : string) :
  exists out,
    update (StringLiteral text) = StringLiteral out
    /\ (out = text \/ JS.endsWith out scriptExt = true).
Proof.
  rewrite update_literal. eexists; split; [reflexivity|]. cbv zeta.
  destruct (negb (isRelativePath text)); [now left|].
  destruct (NodePath.extname text =? ".cjs"); [now left|].
  destruct (isDir text).
  { right. rewrite <- append_assoc. apply endsWith_app. }
  destruct ((NodePath.extname text =? ".json") && resolveJsonModule);
    [now left|].
  destruct (NodePath.extname text =? ".js"); right; apply endsWith_app.
Qed.

(** X16: on a relative text the type-position branch and
    [updateModuleSpecifier] produce the same literal, except for the
    extension [.cjs] and for a directory with extension [.json] under
    [resolveJsonModule]. *)
Theorem type_position_agrees (text : string) :
  isRelativePath text = true ->
  NodePath.extname text <> ".cjs" ->
  isDir text && ((NodePath.extname text =? ".json") && resolveJsonModule)
  = false ->
  updateTypePosition text = update (StringLiteral text).
Proof.
  intros Hrel Hcjs Hdirjson.
  unfold updateTypePositionLiteral, updateModuleSpecifier.
  rewrite Hrel. cbn [negb]. rewrite andb_false_r.
  apply String.eqb_neq in Hcjs. rewrite Hcjs.
  unfold JSON_EXT in *.
  destruct (isDir text);
    destruct ((NodePath.extname text =? ".json") && resolveJsonModule);
    try reflexivity; discriminate.
Qed.

Lemma update_bareSpecifier (spec : Node) :
  Props.bareSpecifier spec = true -> update spec = spec.
Proof.
  destruct spec; try reflexivity. simpl. intros H.
  unfold updateModuleSpecifier. now rewrite H.
Qed.

Lemma visitNodes_bare (l : list Node) :
  Forall (fun n => Props.bare n = true ->
                   forall r, fst (visit n r) = n) l ->
  forallb Props.bare l = true ->
  forall r, fst (visitAll l r) = l.
Proof.
  induction 1 as [|x xs Hx _ IH]; intros Hb r; [reflexivity|].
  cbn [forallb] in Hb. apply andb_prop in Hb as [Hbx Hbxs].
  cbn [visitNodes]. specialize (Hx Hbx r).
  destruct (visit x r) as [x' r1]. cbn [fst] in Hx. subst x'.
  specialize (IH Hbxs r1). destruct (visitAll xs r1) as [xs' r2].
  cbn [fst] in *. now subst.
Qed.

(** X17: a tree in which no specifier is a relative string literal and no
    string literal is relative or [..] is returned as it is, whatever the
    recent nodes are. *)
Theorem visitor_bare_unchanged (node : Node) :
  Props.bare node = true ->
  forall recentNodes, fst (visit node recentNodes) = node.
Proof.
  induction node as [n Hn | e t a IHe IHt IHa | k c IHc] using Node_visit_ind;
    intros Hb r.
  - destruct n; try contradiction; cbn [visitor]; try reflexivity.
    + destruct (typePositionShape _ _ _); [|reflexivity].
      cbn [fst Props.bare] in *. unfold updateTypePositionLiteral.
      now rewrite Hb.
    + cbn [fst Props.bare] in *. now rewrite update_bareSpecifier.
    + destruct moduleSpecifier; [|reflexivity].
      cbn [fst Props.bare] in *. now rewrite update_bareSpecifier.
  - assert (Hfirst :
      Props.firstBare a = true ->
      fst (match a with
           | [] => (CallExpression e t a, unshift3 (CallExpression e t a) r)
           | firstArg :: restArg =>
               (CallExpression e t (update firstArg :: restArg),
                unshift3 (CallExpression e t a) r)
           end) = CallExpression e t a).
    { destruct a; [reflexivity|]. simpl. intros H.
      now rewrite update_bareSpecifier. }
    assert (Hrec :
      Props.bare e = true -> forallb Props.bare t = true ->
      forallb Props.bare a = true ->
      fst (let (e', r1) := visit e (unshift3 (CallExpression e t a) r) in
           let (t', r2) := visitAll t r1 in
           let (a', r3) := visitAll a r2 in
           (CallExpression e' t' a', r3)) = CallExpression e t a).
    { intros He Ht Ha. specialize (IHe He (unshift3 (CallExpression e t a) r)).
      destruct (visit e _) as [e' r1]. cbn [fst] in IHe. subst e'.
      pose proof (visitNodes_bare t IHt Ht r1) as Ht'.
      destruct (visitAll t r1) as [t' r2]. cbn [fst] in Ht'. subst t'.
      pose proof (visitNodes_bare a IHa Ha r2) as Ha'.
      destruct (visitAll a r2) as [a' r3]. cbn [fst] in Ha'. now subst a'. }
    destruct e; cbn [Props.bare] in Hb;
      try (apply andb_prop in Hb as [Hb Ha];
           apply andb_prop in Hb as [He Ht];
           exact (Hrec He Ht Ha)).
    + exact (Hfirst Hb).
    + cbn [visitor]. destruct (escapedText =? "require").
      * exact (Hfirst Hb).
      * apply andb_prop in Hb as [Ht Ha]. exact (Hrec eq_refl Ht Ha).
  - rewrite visitor_OtherNode. cbn [Props.bare] in Hb.
    pose proof (visitNodes_bare c IHc Hb (unshift3 (OtherNode k c) r)) as Hc.
    destruct (visitAll c _) as [c' r1]. cbn [fst] in *. now subst.
Qed.

Lemma update_eraseLiterals (spec : Node) :
  Props.eraseLiterals (update spec) = Props.eraseLiterals spec.
Proof.
  destruct spec; try reflexivity.
  rewrite update_literal. reflexivity.
Qed.

Lemma updateTypePosition_eraseLiterals (text : string) :
  Props.eraseLiterals (updateTypePosition text) = StringLiteral "".
Proof.
  unfold updateTypePositionLiteral.
  destruct (negb (text =? "..") && negb (isRelativePath text));
    [reflexivity|].
  destruct ((NodePath.extname text =? JSON_EXT) && resolveJsonModule);
    [reflexivity|].
  now destruct (isDir text).
Qed.

Lemma visitNodes_eraseLiterals (l : list Node) :
  Forall (fun n => forall r, Props.eraseLiterals (fst (visit n r))
                             = Props.eraseLiterals n) l ->
  forall r, map Props.eraseLiterals (fst (visitAll l r))
            = map Props.eraseLiterals l.
Proof.
  induction 1 as [|x xs Hx _ IH]; intros r; [reflexivity|].
  cbn [visitNodes]. specialize (Hx r).
  destruct (visit x r) as [x' r1]. cbn [fst] in Hx.
  specialize (IH r1). destruct (visitAll xs r1) as [xs' r2].
  cbn [fst map] in *. now rewrite Hx, IH.
Qed.

(** The visitor changes nothing but the text of string literals. *)
Lemma visitor_eraseLiterals (node : Node) :
  forall r, Props.eraseLiterals (fst (visit node r))
            = Props.eraseLiterals node.
Proof.
  induction node as [n Hn | e t a IHe IHt IHa | k c IHc] using Node_visit_ind;
    intros r.
  - destruct n; try contradiction; cbn [visitor]; try reflexivity.
    + destruct (typePositionShape _ _ _); [|reflexivity].
      cbn [fst]. apply updateTypePosition_eraseLiterals.
    + cbn [fst Props.eraseLiterals]. now rewrite update_eraseLiterals.
    + destruct moduleSpecifier; [|reflexivity].
      cbn [fst Props.eraseLiterals option_map].
      now rewrite update_eraseLiterals.
  - assert (Hfirst :
      Props.eraseLiterals
        (fst (match a with
              | [] => (CallExpression e t a, unshift3 (CallExpression e t a) r)
              | firstArg :: restArg =>
                  (CallExpression e t (update firstArg :: restArg),
                   unshift3 (CallExpression e t a) r)
              end)) = Props.eraseLiterals (CallExpression e t a)).
    { destruct a; [reflexivity|].
      cbn [fst Props.eraseLiterals map]. now rewrite update_eraseLiterals. }
    assert (Hrec :
      Props.eraseLiterals
        (fst (let (e', r1) := visit e (unshift3 (CallExpression e t a) r) in
              let (t', r2) := visitAll t r1 in
              let (a', r3) := visitAll a r2 in
              (CallExpression e' t' a', r3)))
      = Props.eraseLiterals (CallExpression e t a)).
    { specialize (IHe (unshift3 (CallExpression e t a) r)).
      destruct (visit e _) as [e' r1]. cbn [fst] in IHe.
      pose proof (visitNodes_eraseLiterals t IHt r1) as Ht.
      destruct (visitAll t r1) as [t' r2]. cbn [fst] in Ht.
      pose proof (visitNodes_eraseLiterals a IHa r2) as Ha.
      destruct (visitAll a r2) as [a' r3]. cbn [fst] in Ha.
      cbn [fst Props.eraseLiterals]. now rewrite IHe, Ht, Ha. }
    destruct e; try exact Hrec; try exact Hfirst.
    cbn [visitor]. destruct (escapedText =? "require");
      [exact Hfirst | exact Hrec].
  - rewrite visitor_OtherNode.
    pose proof (visitNodes_eraseLiterals c IHc (unshift3 (OtherNode k c) r))
      as Hc.
    destruct (visitAll c _) as [c' r1]. cbn [fst Props.eraseLiterals] in *.
    now rewrite Hc.
Qed.

End VisitorMore.

Section TransformFile.

Import RewriteDtsImport.

Variable options : RewriteImport.RewriteImportTransformerOptions.
Variable SyntaxKind : SyntaxKindTable.
Variable directoryExists : string -> bool.
Variable resolve : string -> string -> string.
Variable dirname : string -> string.
Variable resolveJsonModule : bool.

(** X18: the transformer throws on a bundle; on a source file it returns a
    source file of the same name whose tree differs from the input at most
    in the text of string literals, and it keeps the window of recent
    nodes within three entries. *)
Theorem transformFile_frame (file : Root) (recentNodes : list Node) :
  match file with
  | Bundle =>
      transformFile options SyntaxKind directoryExists resolve dirname
        resolveJsonModule file recentNodes
      = JS.Throw (JS.Error "Doesn't work on bundles.")
  | SourceFile fileName node =>
      exists node' recentNodes',
        transformFile options SyntaxKind directoryExists resolve dirname
          resolveJsonModule file recentNodes
        = JS.Ok (SourceFile fileName node', recentNodes')
        /\ Props.eraseLiterals node' = Props.eraseLiterals node
        /\ (List.length recentNodes <= 3 -> List.length recentNodes' <= 3)
  end.
Proof.
  destruct file as [fileName node|]; [|reflexivity].
  unfold transformFile.
  pose proof (visitor_eraseLiterals options SyntaxKind directoryExists resolve
                dirname resolveJsonModule fileName node recentNodes) as Hfr.
  pose proof (visitor_window options SyntaxKind directoryExists resolve
                dirname resolveJsonModule fileName node recentNodes) as Hw.
  destruct (visitor _ _ _ _ _ _ fileName node recentNodes) as [node' r'].
  exists node', r'. repeat split; assumption.
Qed.

End TransformFile.

Lemma type_position_agrees_witness :
  RewriteDtsImport.isRelativePath "./foo.js" = true
  /\ RewriteDtsImport.updateTypePositionLiteral Examples.mjsOptions
       Examples.noDirectory Examples.resolve Examples.dirname true
       "src/a.d.ts" "./foo.js"
     = RewriteDtsImport.StringLiteral "./foo.mjs".
Proof.
  split; [reflexivity|].
  rewrite (type_position_agrees Examples.mjsOptions Examples.noDirectory
             Examples.resolve Examples.dirname true "src/a.d.ts" "./foo.js"
             eq_refl ltac:(vm_compute; discriminate) eq_refl).
  reflexivity.
Defined.

Lemma visitor_bare_unchanged_witness :
  let tree :=
    RewriteDtsImport.OtherNode 312
      [RewriteDtsImport.ImportDeclaration [] None
         (RewriteDtsImport.StringLiteral "typescript") None;
       RewriteDtsImport.CallExpression
         (RewriteDtsImport.Identifier "require") []
         [RewriteDtsImport.StringLiteral "path"]] in
  Props.bare tree = true
  /\ fst (RewriteDtsImport.visitor Examples.mjsOptions Examples.syntaxKinds
            Examples.noDirectory Examples.resolve Examples.dirname false
            "src/a.d.ts" tree []) = tree.
Proof.
  split; [reflexivity|].
  apply (visitor_bare_unchanged Examples.mjsOptions Examples.syntaxKinds
           Examples.noDirectory Examples.resolve Examples.dirname false
           "src/a.d.ts"). reflexivity.
Defined.

(** * Small checks of the built-ins *)

Example endsWith_ex1 : JS.endsWith "a/b.js" ".js" = true.
Proof. reflexivity. Qed.
Example endsWith_ex2 : JS.endsWith "js" ".js" = false.
Proof. reflexivity. Qed.
Example extname_ex1 : NodePath.extname "./foo/index.mjs" = ".mjs".
Proof. reflexivity. Qed.
Example extname_ex2 : NodePath.extname "./.js" = "".
Proof. reflexivity. Qed.
Example extname_ex3 : NodePath.extname ".." = "".
Proof. reflexivity. Qed.
Example extname_ex4 : NodePath.extname "./foo.js/" = ".js".
Proof. reflexivity. Qed.
Example extname_ex5 : NodePath.extname "./index." = ".".
Proof. reflexivity. Qed.
Example extname_ex6 : NodePath.extname "./a.b/c" = "".
Proof. reflexivity. Qed.
Example extname_ex7 : NodePath.extname "./a/..b" = ".b".
Proof. reflexivity. Qed.
Example extname_ex8 : NodePath.extname "./a/.." = "".
Proof. reflexivity. Qed.
Example extname_ex9 : NodePath.extname "./a/..." = ".".
Proof. reflexivity. Qed.
Example trimSuffix_ex1 : Utils.trimSuffix "a/b.js" ".js" = "a/b".
Proof. reflexivity. Qed.
